(** * NYSE market-hours calendar engine (tests/nyse-token-hook.ts)

    Shallow embedding of the calendar engine that the TypeScript test
    harness uses to predict whether the NYSE transfer hook will allow a
    transfer.  The repository carries two copies of the engine:

    - [Full]: the complete engine (Gregorian calendar, nth-weekday scan,
      DST rule, nine-holiday calendar);
    - [Simple]: the simplified engine (365-day years, day-of-year DST
      window, three fixed holidays).

    JavaScript numbers are modelled by [Z]: every value the engine handles
    is an integer far below 2^53, where double arithmetic on integers is
    exact.  [%] is the truncated remainder [Z.rem], [Math.floor (a / b)]
    for a positive [b] is the floor division [Z.div].  The single place
    where a non-number can arise (an out-of-range read of the month table)
    is modelled with [option Z], [None] standing for [NaN]. *)

From Stdlib Require Import ZArith List String Ascii Bool Lia DecimalString.
From Equations Require Import Equations.
Import ListNotations.
Local Open Scope string_scope.
Local Open Scope Z_scope.

(** ** The host environment

    [new Date()] reads the wall clock of the host.  The host also has a
    local time zone, which a [Date] object exposes through its local
    getters; the engine only ever calls [getTime]. *)

Record Host := mkHost {
  clockMillis : Z;            (* what [new Date().getTime()] returns *)
  timezoneOffsetMinutes : Z   (* the host's local zone *)
}.

(** A [Date] object is its time value, in milliseconds since the epoch. *)
Definition Date := Z.
Definition newDate (h : Host) : Date := clockMillis h.
Definition getTime (d : Date) : Z := d.

(** ** Records of the program *)

Module EasternTime.
Record t := mk {
  year : Z;
  month : Z;
  day : Z;
  hour : Z;
  minute : Z;
  second : Z;
  weekday : Z;   (* 0 = Sunday, 1 = Monday, ..., 6 = Saturday *)
  isDST : bool
}.
End EasternTime.

Module DateInfo.
Record t := mk { year : Z; month : Z; day : Z; weekday : Z }.
End DateInfo.

Module MarketState.
Record t := mk {
  status : string;
  isOpen : bool;
  reason : string;
  easternTime : string
}.
End MarketState.

(** ** Strings: [toString] and [padStart] *)

Definition toString (n : Z) : string := NilZero.string_of_int (Z.to_int n).

Fixpoint repeatString (s : string) (n : nat) : string :=
  match n with
  | O => EmptyString
  | S k => (s ++ repeatString s k)%string
  end.

(** [s.padStart(targetLength, "0")]: the one-character pad string is
    repeated until [s] has [targetLength] characters. *)
Definition padStart (targetLength : nat) (s : string) : string :=
  (repeatString "0" (targetLength - String.length s) ++ s)%string.

(** ** Loops shared by both engines *)

(** [for (const daysInMonth of daysInMonths) { if (remainingDays <
    daysInMonth) break; remainingDays -= daysInMonth; month += 1; }].
    Returns the final [(remainingDays, month)]. *)
Fixpoint stripMonths (daysInMonths : list Z) (remainingDays month : Z)
  : Z * Z :=
  match daysInMonths with
  | [] => (remainingDays, month)
  | daysInMonth :: rest =>
      if remainingDays <? daysInMonth then (remainingDays, month)
      else stripMonths rest (remainingDays - daysInMonth) (month + 1)
  end.

(** [(((n + 4) % 7) + 7) % 7]: January 1, 1970 was a Thursday (4). *)
Definition weekdayOfDays (n : Z) : Z := Z.rem (Z.rem (n + 4) 7 + 7) 7.

(** [((t % 86400) + 86400) % 86400]. *)
Definition secondsOfDay (t : Z) : Z := Z.rem (Z.rem t 86400 + 86400) 86400.

(** The template literal of [getCurrentNYSEMarketState] up to and
    including the [EST]/[EDT] suffix. *)
Definition formatEastern (e : EasternTime.t) : string :=
  (toString (EasternTime.year e) ++ "-"
   ++ padStart 2 (toString (EasternTime.month e)) ++ "-"
   ++ padStart 2 (toString (EasternTime.day e)) ++ " "
   ++ padStart 2 (toString (EasternTime.hour e)) ++ ":"
   ++ padStart 2 (toString (EasternTime.minute e)) ++ ":"
   ++ padStart 2 (toString (EasternTime.second e)) ++ " "
   ++ (if EasternTime.isDST e then "EDT" else "EST"))%string.

(** JavaScript truthiness of a [string | null] value. *)
Definition truthy (s : option string) : bool :=
  match s with
  | Some EmptyString => false
  | Some _ => true
  | None => false
  end.

(** The tail shared by both copies of [getCurrentNYSEMarketState]:
    the trading-hours check (9:30 AM - 4:00 PM ET). *)
Definition marketOpenMinutes : Z := 9 * 60 + 30.
Definition marketCloseMinutes : Z := 16 * 60.

Definition hoursCheck (e : EasternTime.t) (easternTimeString : string)
  : MarketState.t :=
  let currentMinutes := EasternTime.hour e * 60 + EasternTime.minute e in
  if (currentMinutes >=? marketOpenMinutes)
     && (currentMinutes <? marketCloseMinutes)
  then MarketState.mk "OPEN" true "Regular Trading Hours" easternTimeString
  else
    let timeStatus :=
      if currentMinutes <? marketOpenMinutes
      then "Pre-Market" else "After-Market" in
    MarketState.mk "AFTER_HOURS" false
      (timeStatus ++ " (outside 9:30 AM - 4:00 PM ET)")%string
      easternTimeString.

(** ** The full engine (first copy of the file) *)

Module Full.

Definition isLeapYear (year : Z) : bool :=
  ((Z.rem year 4 =? 0) && negb (Z.rem year 100 =? 0))
  || (Z.rem year 400 =? 0).

Definition yearDays (year : Z) : Z :=
  if isLeapYear year then 366 else 365.

Definition daysInMonthsOf (year : Z) : list Z :=
  if isLeapYear year
  then [31; 29; 31; 30; 31; 30; 31; 31; 30; 31; 30; 31]
  else [31; 28; 31; 30; 31; 30; 31; 31; 30; 31; 30; 31].

(** The [while (remainingDays >= 365)] loop of [daysSinceEpochToDate];
    returns the final [(year, remainingDays)].  Every iteration that
    does not leave the loop removes at least 365 days. *)
Equations? stripYears (year remainingDays : Z) : Z * Z
  by wf (Z.to_nat remainingDays) lt :=
  stripYears year remainingDays with Z_ge_dec remainingDays 365 := {
    | left _ with Z_ge_dec remainingDays (yearDays year) := {
        | left _ => stripYears (year + 1) (remainingDays - yearDays year)
        | right _ => (year, remainingDays) }
    | right _ => (year, remainingDays) }.
Proof. unfold yearDays in *. destruct (isLeapYear year); lia. Qed.

Definition daysSinceEpochToDate (days : Z) : DateInfo.t :=
  let '(year, remainingDays) := stripYears 1970 days in
  let '(remainingDays, month) :=
    stripMonths (daysInMonthsOf year) remainingDays 1 in
  let day := remainingDays + 1 in
  let weekday := weekdayOfDays days in
  DateInfo.mk year month day weekday.

Definition getDaysInMonth (year month : Z) : Z :=
  if (month =? 1) || (month =? 3) || (month =? 5) || (month =? 7)
     || (month =? 8) || (month =? 10) || (month =? 12) then 31
  else if (month =? 4) || (month =? 6) || (month =? 9) || (month =? 11)
  then 30
  else if month =? 2 then (if isLeapYear year then 29 else 28)
  else 30.

(** [for (let y = 1970; y < year; y++) days += isLeapYear(y) ? 366 : 365].
    [trips] is the number of iterations still to run; the caller
    passes the exact trip count [year - 1970]. *)
Fixpoint addYears (trips : nat) (y year days : Z) : Z :=
  match trips with
  | O => days
  | S k =>
      if y <? year then addYears k (y + 1) year (days + yearDays y)
      else days
  end.

(** [daysInMonths[i]], [undefined] outside the table. *)
Definition tableAt (daysInMonths : list Z) (i : Z) : option Z :=
  if i <? 0 then None else nth_error daysInMonths (Z.to_nat i).

(** [days += x] where [x] may be [undefined]: the sum is then [NaN]. *)
Definition plus (days x : option Z) : option Z :=
  match days, x with
  | Some a, Some b => Some (a + b)
  | _, _ => None
  end.

(** [for (let m = 1; m < month; m++) days += daysInMonths[m - 1]]. *)
Fixpoint addMonths (trips : nat) (daysInMonths : list Z) (m month : Z)
  (days : option Z) : option Z :=
  match trips with
  | O => days
  | S k =>
      if m <? month
      then addMonths k daysInMonths (m + 1) month
             (plus days (tableAt daysInMonths (m - 1)))
      else days
  end.

Definition dateToDatesSinceEpoch (year month day : Z) : option Z :=
  let days := addYears (Z.to_nat (year - 1970)) 1970 year 0 in
  let days :=
    addMonths (Z.to_nat (month - 1)) (daysInMonthsOf year) 1 month
      (Some days) in
  plus days (Some (day - 1)).

(** Weekday of a calendar date as the two scans compute it
    ([dateToDatesSinceEpoch] followed by the weekday formula); [None]
    is [NaN], which is [===] to no target weekday. *)
Definition weekdayOfDate (year month day : Z) : option Z :=
  option_map weekdayOfDays (dateToDatesSinceEpoch year month day).

Definition weekdayIs (w : option Z) (targetWeekday : Z) : bool :=
  match w with
  | Some v => v =? targetWeekday
  | None => false
  end.

(** The [for (let day = 1; day <= daysInMonth; day++)] scan of
    [getNthWeekdayOfMonth].  [Some day] is the [return day] inside the
    loop; [None] means the loop ran to its end, after which the function
    executes [return 1; // Fallback]. *)
Fixpoint scanNth (trips : nat) (year month targetWeekday occurrence : Z)
  (daysInMonth day count : Z) : option Z :=
  match trips with
  | O => None
  | S k =>
      if day <=? daysInMonth then
        if weekdayIs (weekdayOfDate year month day) targetWeekday then
          let count := count + 1 in
          if count =? occurrence then Some day
          else scanNth k year month targetWeekday occurrence
                 daysInMonth (day + 1) count
        else scanNth k year month targetWeekday occurrence
               daysInMonth (day + 1) count
      else None
  end.

Definition findNthWeekdayOfMonth (year month targetWeekday occurrence : Z)
  : option Z :=
  let daysInMonth := getDaysInMonth year month in
  scanNth (Z.to_nat daysInMonth) year month targetWeekday occurrence
    daysInMonth 1 0.

Definition getNthWeekdayOfMonth (year month targetWeekday occurrence : Z)
  : Z :=
  match findNthWeekdayOfMonth year month targetWeekday occurrence with
  | Some day => day
  | None => 1 (* Fallback *)
  end.

(** The [for (let day = daysInMonth; day >= 1; day--)] scan of
    [getLastWeekdayOfMonth]; [None] again stands for reaching
    [return 1; // Fallback]. *)
Fixpoint scanLast (trips : nat) (year month targetWeekday day : Z)
  : option Z :=
  match trips with
  | O => None
  | S k =>
      if day >=? 1 then
        if weekdayIs (weekdayOfDate year month day) targetWeekday
        then Some day
        else scanLast k year month targetWeekday (day - 1)
      else None
  end.

Definition findLastWeekdayOfMonth (year month targetWeekday : Z)
  : option Z :=
  let daysInMonth := getDaysInMonth year month in
  scanLast (Z.to_nat daysInMonth) year month targetWeekday daysInMonth.

Definition getLastWeekdayOfMonth (year month targetWeekday : Z) : Z :=
  match findLastWeekdayOfMonth year month targetWeekday with
  | Some day => day
  | None => 1 (* Fallback *)
  end.

Definition isDSTInEffect (year month day weekday : Z) : bool :=
  if (month <? 3) || (month >? 11) then false
  else if (month >? 3) && (month <? 11) then true
  else if month =? 3 then
    let secondSunday := getNthWeekdayOfMonth year 3 0 2 in
    day >=? secondSunday
  else if month =? 11 then
    let firstSunday := getNthWeekdayOfMonth year 11 0 1 in
    day <? firstSunday
  else false.

(** [first] if that block returned, otherwise control falls through to
    [next]. *)
Definition orElse (first next : option string) : option string :=
  match first with
  | Some s => Some s
  | None => next
  end.

Definition checkNYSEHoliday (year month day weekday : Z) : option string :=
  (* New Year's Day (January 1, or next Monday if weekend) *)
  orElse
    (if month =? 1 then
       if (day =? 1) && negb (weekday =? 0) && negb (weekday =? 6)
       then Some "New Year's Day"
       else if (day =? 2) && (weekday =? 1)
       then Some "New Year's Day (Observed)"
       else if (day =? 3) && (weekday =? 1)
       then Some "New Year's Day (Observed)"
       else None
     else None)
  (* Martin Luther King Jr. Day (3rd Monday in January) *)
  (orElse
    (if month =? 1 then
       let thirdMonday := getNthWeekdayOfMonth year 1 1 3 in
       if day =? thirdMonday then Some "Martin Luther King Jr. Day"
       else None
     else None)
  (* Washington's Birthday/Presidents Day (3rd Monday in February) *)
  (orElse
    (if month =? 2 then
       let thirdMonday := getNthWeekdayOfMonth year 2 1 3 in
       if day =? thirdMonday then Some "Presidents Day" else None
     else None)
  (* Memorial Day (Last Monday in May) *)
  (orElse
    (if month =? 5 then
       let lastMonday := getLastWeekdayOfMonth year 5 1 in
       if day =? lastMonday then Some "Memorial Day" else None
     else None)
  (* Juneteenth (June 19, or next Monday if weekend) *)
  (orElse
    (if month =? 6 then
       if (day =? 19) && negb (weekday =? 0) && negb (weekday =? 6)
       then Some "Juneteenth"
       else if (day =? 20) && (weekday =? 1)
       then Some "Juneteenth (Observed)"
       else if (day =? 21) && (weekday =? 1)
       then Some "Juneteenth (Observed)"
       else None
     else None)
  (* Independence Day (July 4, or next Monday if weekend) *)
  (orElse
    (if month =? 7 then
       if (day =? 4) && negb (weekday =? 0) && negb (weekday =? 6)
       then Some "Independence Day"
       else if (day =? 5) && (weekday =? 1)
       then Some "Independence Day (Observed)"
       else if (day =? 6) && (weekday =? 1)
       then Some "Independence Day (Observed)"
       else None
     else None)
  (* Labor Day (1st Monday in September) *)
  (orElse
    (if month =? 9 then
       let firstMonday := getNthWeekdayOfMonth year 9 1 1 in
       if day =? firstMonday then Some "Labor Day" else None
     else None)
  (* Thanksgiving (4th Thursday in November) *)
  (orElse
    (if month =? 11 then
       let fourthThursday := getNthWeekdayOfMonth year 11 4 4 in
       if day =? fourthThursday then Some "Thanksgiving Day" else None
     else None)
  (* Christmas Day (December 25, or next Monday if weekend) *)
  (orElse
    (if month =? 12 then
       if (day =? 25) && negb (weekday =? 0) && negb (weekday =? 6)
       then Some "Christmas Day"
       else if (day =? 26) && (weekday =? 1)
       then Some "Christmas Day (Observed)"
       else if (day =? 27) && (weekday =? 1)
       then Some "Christmas Day (Observed)"
       else None
     else None)
    None)))))))).

Definition convertUTCToEastern (utcDate : Date) : EasternTime.t :=
  let utcTimestamp := getTime utcDate / 1000 in
  let daysSinceEpoch := utcTimestamp / 86400 in
  let dateInfo := daysSinceEpochToDate daysSinceEpoch in
  let isDST :=
    isDSTInEffect (DateInfo.year dateInfo) (DateInfo.month dateInfo)
      (DateInfo.day dateInfo) (DateInfo.weekday dateInfo) in
  let easternOffsetHours := if isDST then -4 else -5 in
  let easternTimestamp := utcTimestamp + easternOffsetHours * 3600 in
  let easternSecondsToday := secondsOfDay easternTimestamp in
  let hour := easternSecondsToday / 3600 in
  let minute := Z.rem easternSecondsToday 3600 / 60 in
  let second := Z.rem easternSecondsToday 60 in
  EasternTime.mk (DateInfo.year dateInfo) (DateInfo.month dateInfo)
    (DateInfo.day dateInfo) hour minute second
    (DateInfo.weekday dateInfo) isDST.

(** The body of [getCurrentNYSEMarketState] after the conversion. *)
Definition marketStateOf (easternTime : EasternTime.t) : MarketState.t :=
  let easternTimeString := formatEastern easternTime in
  if (EasternTime.weekday easternTime =? 0)
     || (EasternTime.weekday easternTime =? 6)
  then MarketState.mk "WEEKEND" false "Weekend" easternTimeString
  else
    let holidayName :=
      checkNYSEHoliday (EasternTime.year easternTime)
        (EasternTime.month easternTime) (EasternTime.day easternTime)
        (EasternTime.weekday easternTime) in
    if truthy holidayName then
      MarketState.mk "HOLIDAY" false
        (match holidayName with Some s => s | None => EmptyString end)
        easternTimeString
    else hoursCheck easternTime easternTimeString.

(** [getCurrentNYSEMarketState()]: no parameter; the time comes from
    [new Date()]. *)
Definition getCurrentNYSEMarketState (h : Host) : MarketState.t :=
  let now := newDate h in
  let easternTime := convertUTCToEastern now in
  marketStateOf easternTime.

End Full.

(** ** The simplified engine (second copy of the file) *)

Module Simple.

(** Simplified DST check: a window of day numbers within a 365-day
    "year". *)
Definition isDaylightSavingTimeSimple (utcTimestamp : Z) : bool :=
  let daysSinceEpoch := utcTimestamp / 86400 in
  let approxYear := 1970 + daysSinceEpoch / 365 in
  let daysInYear := Z.rem daysSinceEpoch 365 in
  if approxYear >=? 2007
  then (daysInYear >=? 70) && (daysInYear <=? 305)
  else (daysInYear >=? 90) && (daysInYear <=? 300).

(** Simplified date calculation; returns [(year, month, day)]. *)
Definition daysToDateSimple (daysSinceEpoch : Z) : Z * Z * Z :=
  let approxYear := 1970 + daysSinceEpoch / 365 in
  let remainingDays := Z.rem daysSinceEpoch 365 in
  let months := [31; 28; 31; 30; 31; 30; 31; 31; 30; 31; 30; 31] in
  let '(daysLeft, month) := stripMonths months remainingDays 1 in
  let day := Z.max (daysLeft + 1) 1 in
  (approxYear, month, day).

Definition isNYSEHolidaySimple (year month day : Z) : bool :=
  if month =? 1 then day =? 1          (* New Year's Day *)
  else if month =? 7 then day =? 4     (* Independence Day *)
  else if month =? 12 then day =? 25   (* Christmas Day *)
  else false.

Definition convertUTCToEasternSimple (utcDate : Date) : EasternTime.t :=
  let utcTimestamp := getTime utcDate / 1000 in
  let isDST := isDaylightSavingTimeSimple utcTimestamp in
  let easternOffsetSeconds := if isDST then -4 * 3600 else -5 * 3600 in
  let easternTimestamp := utcTimestamp + easternOffsetSeconds in
  let daysSinceEpoch := easternTimestamp / 86400 in
  let secondsInDay := Z.rem easternTimestamp 86400 in
  let secondsInDay :=
    if secondsInDay <? 0 then secondsInDay + 86400 else secondsInDay in
  let weekday := weekdayOfDays daysSinceEpoch in
  let hour := secondsInDay / 3600 in
  let minute := Z.rem secondsInDay 3600 / 60 in
  let second := Z.rem secondsInDay 60 in
  let '(year, month, day) := daysToDateSimple daysSinceEpoch in
  EasternTime.mk year month day hour minute second weekday isDST.

(** The body of the simplified [getCurrentNYSEMarketState] after the
    conversion.  Its [console.log] diagnostics do not influence the
    returned object and are left out. *)
Definition marketStateOf (easternTime : EasternTime.t) : MarketState.t :=
  let easternTimeString :=
    (formatEastern easternTime ++ " (Weekday: "
     ++ toString (EasternTime.weekday easternTime) ++ ")")%string in
  if (EasternTime.weekday easternTime =? 0)
     || (EasternTime.weekday easternTime =? 6)
  then MarketState.mk "WEEKEND" false "Weekend" easternTimeString
  else if isNYSEHolidaySimple (EasternTime.year easternTime)
            (EasternTime.month easternTime) (EasternTime.day easternTime)
  then MarketState.mk "HOLIDAY" false "NYSE Holiday" easternTimeString
  else hoursCheck easternTime easternTimeString.

Definition getCurrentNYSEMarketState (h : Host) : MarketState.t :=
  let now := newDate h in
  let easternTime := convertUTCToEasternSimple now in
  marketStateOf easternTime.

End Simple.

(** ** Notions used to state and prove the properties *)

(** Days from 1970-01-01 to January 1 of [year]: the value of [days]
    after the year loop of [dateToDatesSinceEpoch]. *)
Definition daysBeforeYear (year : Z) : Z :=
  Full.addYears (Z.to_nat (year - 1970)) 1970 year 0.

Definition sumList (l : list Z) : Z := fold_right Z.add 0 l.

(** The two scans as seen from the weekday [w1] of the first day of the
    month: day [day] then has weekday [(w1 + day - 1) mod 7]. *)
Fixpoint scanNthFrom (trips : nat) (w1 targetWeekday occurrence : Z)
  (daysInMonth day count : Z) : option Z :=
  match trips with
  | O => None
  | S k =>
      if day <=? daysInMonth then
        if (w1 + day - 1) mod 7 =? targetWeekday then
          let count := count + 1 in
          if count =? occurrence then Some day
          else scanNthFrom k w1 targetWeekday occurrence
                 daysInMonth (day + 1) count
        else scanNthFrom k w1 targetWeekday occurrence
               daysInMonth (day + 1) count
      else None
  end.

Fixpoint scanLastFrom (trips : nat) (w1 targetWeekday day : Z) : option Z :=
  match trips with
  | O => None
  | S k =>
      if day >=? 1 then
        if (w1 + day - 1) mod 7 =? targetWeekday then Some day
        else scanLastFrom k w1 targetWeekday (day - 1)
      else None
  end.

(** The fixed-date holidays of [checkNYSEHoliday]: month, day of the
    month and name, read off its four fixed-date blocks. *)
Definition fixedHolidays : list (Z * Z * string) :=
  [ (1, 1, "New Year's Day"); (6, 19, "Juneteenth");
    (7, 4, "Independence Day"); (12, 25, "Christmas Day") ].

(** The calendar day before a fixed holiday: January 1 is preceded by
    December 31 of the previous year. *)
Definition dayBefore (year month date : Z) : Z * Z * Z :=
  if (month =? 1) && (date =? 1) then (year - 1, 12, 31)
  else (year, month, date - 1).

(** The holiday calendar as a table of rules: [HolidayRule year month day
    weekday name] lists the (month, day, weekday) combinations for which
    a [return] statement of [checkNYSEHoliday] is written, with the name
    it returns. *)
Inductive HolidayRule (year : Z) : Z -> Z -> Z -> string -> Prop :=
| rule_fixed month date name weekday :
    In (month, date, name) fixedHolidays ->
    weekday <> 0 -> weekday <> 6 ->
    HolidayRule year month date weekday name
| rule_observed month date name day :
    In (month, date, name) fixedHolidays ->
    day = date + 1 \/ day = date + 2 ->
    HolidayRule year month day 1 (name ++ " (Observed)")
| rule_mlk weekday :
    HolidayRule year 1 (Full.getNthWeekdayOfMonth year 1 1 3) weekday
      "Martin Luther King Jr. Day"
| rule_presidents weekday :
    HolidayRule year 2 (Full.getNthWeekdayOfMonth year 2 1 3) weekday
      "Presidents Day"
| rule_memorial weekday :
    HolidayRule year 5 (Full.getLastWeekdayOfMonth year 5 1) weekday
      "Memorial Day"
| rule_labor weekday :
    HolidayRule year 9 (Full.getNthWeekdayOfMonth year 9 1 1) weekday
      "Labor Day"
| rule_thanksgiving weekday :
    HolidayRule year 11 (Full.getNthWeekdayOfMonth year 11 4 4) weekday
      "Thanksgiving Day".

(** The month table of the simplified date calculation. *)
Definition months365 : list Z :=
  [31; 28; 31; 30; 31; 30; 31; 31; 30; 31; 30; 31].

(** * Properties *)

(** ** Arithmetic of the JavaScript idioms *)

(** [((n % k) + k) % k] is the mathematical (floored) modulus. *)
Lemma wrap_rem_mod (n k : Z) : 0 < k -> Z.rem (Z.rem n k + k) k = n mod k.
Proof.
  intros Hk.
  pose proof (Z.rem_bound_abs n k ltac:(lia)) as Hb.
  assert (Hr : 0 <= Z.rem n k + k) by lia.
  rewrite Z.rem_mod_nonneg by lia.
  rewrite <- (Z.mod_add n 1 k) by lia.
  rewrite (Z.quot_rem' n k) at 2.
  replace (k * (n ÷ k) + Z.rem n k + 1 * k)
    with (Z.rem n k + k + (n ÷ k) * k) by ring.
  now rewrite Z.mod_add by lia.
Qed.

Lemma weekdayOfDays_mod (n : Z) : weekdayOfDays n = (n + 4) mod 7.
Proof. unfold weekdayOfDays. apply wrap_rem_mod. lia. Qed.

Lemma weekdayOfDays_range (n : Z) : 0 <= weekdayOfDays n <= 6.
Proof.
  rewrite weekdayOfDays_mod.
  pose proof (Z.mod_pos_bound (n + 4) 7 ltac:(lia)). lia.
Qed.

Lemma secondsOfDay_mod (t : Z) : secondsOfDay t = t mod 86400.
Proof. unfold secondsOfDay. apply wrap_rem_mod. lia. Qed.

Module FullFacts.
Import Full.

Lemma yearDays_cases (y : Z) : yearDays y = 365 \/ yearDays y = 366.
Proof. unfold yearDays. destruct (isLeapYear y); auto. Qed.

(** *** The year loop of [daysSinceEpochToDate] *)

Lemma stripYears_small (year remainingDays : Z) :
  remainingDays < 365 ->
  stripYears year remainingDays = (year, remainingDays).
Proof.
  intros H. rewrite stripYears_equation_1.
  destruct (Z_ge_dec remainingDays 365); [lia | reflexivity].
Qed.

Lemma stripYears_break (year remainingDays : Z) :
  remainingDays < yearDays year ->
  stripYears year remainingDays = (year, remainingDays).
Proof.
  intros H. rewrite stripYears_equation_1.
  destruct (Z_ge_dec remainingDays 365); [| reflexivity].
  cbn. destruct (Z_ge_dec remainingDays (yearDays year)); [lia | reflexivity].
Qed.

Lemma stripYears_step (year remainingDays : Z) :
  yearDays year <= remainingDays ->
  stripYears year remainingDays
  = stripYears (year + 1) (remainingDays - yearDays year).
Proof.
  intros H. rewrite stripYears_equation_1.
  pose proof (yearDays_cases year).
  destruct (Z_ge_dec remainingDays 365); [| lia].
  cbn. destruct (Z_ge_dec remainingDays (yearDays year)); [reflexivity | lia].
Qed.

(** *** The year loop of [dateToDatesSinceEpoch] *)

Lemma addYears_S (k : nat) (y year d : Z) :
  addYears (S k) y year d
  = if y <? year then addYears k (y + 1) year (d + yearDays y) else d.
Proof. reflexivity. Qed.

Lemma addYears_snoc (k : nat) : forall y d,
  addYears (S k) y (y + Z.of_nat (S k)) d
  = addYears k y (y + Z.of_nat k) d + yearDays (y + Z.of_nat k).
Proof.
  induction k as [| k IH]; intros y d.
  - rewrite addYears_S.
    replace (y <? y + Z.of_nat 1) with true by (symmetry; apply Z.ltb_lt; lia).
    cbn [addYears Z.of_nat]. now rewrite Z.add_0_r.
  - rewrite addYears_S.
    replace (y <? y + Z.of_nat (S (S k))) with true
      by (symmetry; apply Z.ltb_lt; lia).
    replace (y + Z.of_nat (S (S k))) with (y + 1 + Z.of_nat (S k)) by lia.
    rewrite IH.
    rewrite (addYears_S k y).
    replace (y <? y + Z.of_nat (S k)) with true
      by (symmetry; apply Z.ltb_lt; lia).
    replace (y + 1 + Z.of_nat k) with (y + Z.of_nat (S k)) by lia.
    reflexivity.
Qed.

Lemma daysBeforeYear_1970 : daysBeforeYear 1970 = 0.
Proof. reflexivity. Qed.

Lemma daysBeforeYear_succ (y : Z) :
  1970 <= y -> daysBeforeYear (y + 1) = daysBeforeYear y + yearDays y.
Proof.
  intros Hy. unfold daysBeforeYear.
  assert (Hk : exists k, y = 1970 + Z.of_nat k)
    by (exists (Z.to_nat (y - 1970)); lia).
  destruct Hk as [k ->].
  replace (Z.to_nat (1970 + Z.of_nat k + 1 - 1970)) with (S k) by lia.
  replace (Z.to_nat (1970 + Z.of_nat k - 1970)) with k by lia.
  replace (1970 + Z.of_nat k + 1) with (1970 + Z.of_nat (S k)) by lia.
  apply addYears_snoc.
Qed.

(** The year loop stops in the year that contains the day: the days
    stripped are exactly the days before that year. *)
Lemma stripYears_spec (remainingDays : Z) :
  0 <= remainingDays ->
  forall year, 1970 <= year ->
  let r := stripYears year remainingDays in
  year <= fst r
  /\ 0 <= snd r < yearDays (fst r)
  /\ daysBeforeYear (fst r) + snd r = daysBeforeYear year + remainingDays.
Proof.
  intros Hrem. generalize Hrem. pattern remainingDays.
  apply Z_lt_induction; [| exact Hrem].
  clear remainingDays Hrem. intros rem IH Hnn year Hy.
  destruct (Z_lt_le_dec rem (yearDays year)) as [Hlt | Hge].
  - rewrite stripYears_break by assumption. cbn. lia.
  - rewrite stripYears_step by assumption.
    pose proof (yearDays_cases year) as Hyd.
    specialize (IH (rem - yearDays year) ltac:(lia) ltac:(lia)
                  (year + 1) ltac:(lia)).
    cbn zeta in IH. destruct IH as (H1 & H2 & H3).
    rewrite daysBeforeYear_succ in H3 by assumption.
    cbn zeta. lia.
Qed.

(** *** The month loops *)

Lemma stripMonths_spec (daysInMonths : list Z) : forall remainingDays month,
  0 <= remainingDays < sumList daysInMonths ->
  let res := stripMonths daysInMonths remainingDays month in
  exists k : nat,
    (k < List.length daysInMonths)%nat
    /\ snd res = month + Z.of_nat k
    /\ remainingDays = sumList (firstn k daysInMonths) + fst res
    /\ 0 <= fst res < nth k daysInMonths 0.
Proof.
  induction daysInMonths as [| x rest IH]; intros r m Hr.
  - cbn in Hr. lia.
  - cbn [stripMonths]. cbn [sumList fold_right] in Hr.
    fold (sumList rest) in Hr.
    destruct (Z.ltb_spec r x) as [Hlt | Hge].
    + exists 0%nat. cbn. lia.
    + destruct (IH (r - x) (m + 1) ltac:(lia)) as (k & Hk & Hm & Hsum & Hlast).
      exists (S k). cbn [List.length firstn nth sumList fold_right].
      fold (sumList (firstn k rest)). cbn zeta. lia.
Qed.

Lemma daysInMonthsOf_length (year : Z) :
  List.length (daysInMonthsOf year) = 12%nat.
Proof. unfold daysInMonthsOf. destruct (isLeapYear year); reflexivity. Qed.

Lemma daysInMonthsOf_sum (year : Z) :
  sumList (daysInMonthsOf year) = yearDays year.
Proof.
  unfold daysInMonthsOf, yearDays. destruct (isLeapYear year); reflexivity.
Qed.

(** For a month inside the table the month loop of
    [dateToDatesSinceEpoch] adds the lengths of the months before it. *)
Lemma addMonths_table (year : Z) (k : nat) (d : Z) :
  (k <= 12)%nat ->
  addMonths k (daysInMonthsOf year) 1 (1 + Z.of_nat k) (Some d)
  = Some (d + sumList (firstn k (daysInMonthsOf year))).
Proof.
  intros Hk. unfold daysInMonthsOf.
  destruct (isLeapYear year);
    do 13 (destruct k as [| k]; [simpl; f_equal; lia |]); lia.
Qed.

Lemma dateToDatesSinceEpoch_table (year : Z) (k : nat) (day : Z) :
  (k <= 12)%nat ->
  dateToDatesSinceEpoch year (1 + Z.of_nat k) day
  = Some (daysBeforeYear year + sumList (firstn k (daysInMonthsOf year))
          + day - 1).
Proof.
  intros Hk. unfold dateToDatesSinceEpoch. fold (daysBeforeYear year).
  replace (Z.to_nat (1 + Z.of_nat k - 1)) with k by lia.
  rewrite addMonths_table by assumption. cbn [plus]. f_equal. lia.
Qed.

(** *** Weekdays inside one month *)

Lemma month_index (month : Z) :
  1 <= month <= 12 ->
  exists k : nat, (k <= 12)%nat /\ month = 1 + Z.of_nat k.
Proof. intros H. exists (Z.to_nat (month - 1)). lia. Qed.

(** Inside a month the weekday advances by one per day, starting from
    the weekday [w1] of day 1. *)
Lemma weekdayOfDate_from_first (year month : Z) :
  1 <= month <= 12 ->
  exists w1, 0 <= w1 <= 6
    /\ forall day, weekdayOfDate year month day
                   = Some ((w1 + day - 1) mod 7).
Proof.
  intros Hm. destruct (month_index month Hm) as (k & Hk & ->).
  set (D := daysBeforeYear year
            + sumList (firstn k (daysInMonthsOf year))).
  exists ((D + 4) mod 7). split.
  - pose proof (Z.mod_pos_bound (D + 4) 7 ltac:(lia)). lia.
  - intros day. unfold weekdayOfDate.
    rewrite dateToDatesSinceEpoch_table by assumption. cbn [option_map].
    rewrite weekdayOfDays_mod. fold D. f_equal.
    replace (D + day - 1 + 4) with ((D + 4) + (day - 1)) by ring.
    rewrite <- Zplus_mod_idemp_l. f_equal. ring.
Qed.

Lemma weekdayOfDate_next (year month day w : Z) :
  1 <= month <= 12 ->
  weekdayOfDate year month day = Some w ->
  forall n, weekdayOfDate year month (day + n) = Some ((w + n) mod 7).
Proof.
  intros Hm Hw n.
  destruct (weekdayOfDate_from_first year month Hm) as (w1 & _ & Hall).
  rewrite Hall in Hw. injection Hw as <-. rewrite Hall. f_equal.
  rewrite Zplus_mod_idemp_l. f_equal. ring.
Qed.

Lemma scanNth_from (year month targetWeekday occurrence daysInMonth w1 : Z) :
  (forall day, weekdayOfDate year month day
               = Some ((w1 + day - 1) mod 7)) ->
  forall trips day count,
    scanNth trips year month targetWeekday occurrence daysInMonth day count
    = scanNthFrom trips w1 targetWeekday occurrence daysInMonth day count.
Proof.
  intros Hw. induction trips as [| k IH]; intros day count; [reflexivity |].
  cbn [scanNth scanNthFrom]. rewrite Hw. cbn [weekdayIs].
  rewrite !IH. reflexivity.
Qed.

Lemma scanLast_from (year month targetWeekday w1 : Z) :
  (forall day, weekdayOfDate year month day
               = Some ((w1 + day - 1) mod 7)) ->
  forall trips day,
    scanLast trips year month targetWeekday day
    = scanLastFrom trips w1 targetWeekday day.
Proof.
  intros Hw. induction trips as [| k IH]; intros day; [reflexivity |].
  cbn [scanLast scanLastFrom]. rewrite Hw. cbn [weekdayIs].
  rewrite IH. reflexivity.
Qed.

Lemma getDaysInMonth_cases (year month : Z) :
  let n := getDaysInMonth year month in
  n = 28 \/ n = 29 \/ n = 30 \/ n = 31.
Proof.
  unfold getDaysInMonth.
  repeat match goal with
         | |- context [if ?b then _ else _] => destruct b
         end; cbn; auto.
Qed.

(** *** The scans in closed form *)

Ltac cases_0_6 w :=
  let H := fresh "H" in
  assert (H : w = 0 \/ w = 1 \/ w = 2 \/ w = 3 \/ w = 4 \/ w = 5 \/ w = 6)
    by lia;
  destruct H as [-> | [-> | [-> | [-> | [-> | [-> | ->]]]]]].

Ltac cases_1_4 n :=
  let H := fresh "H" in
  assert (H : n = 1 \/ n = 2 \/ n = 3 \/ n = 4) by lia;
  destruct H as [-> | [-> | [-> | ->]]].

(** With at least 28 days, each weekday occurs a first, second, third
    and fourth time, on the day the closed formula gives. *)
Lemma scanNthFrom_closed (w1 targetWeekday occurrence daysInMonth : Z) :
  0 <= w1 <= 6 -> 0 <= targetWeekday <= 6 -> 1 <= occurrence <= 4 ->
  daysInMonth = 28 \/ daysInMonth = 29 \/ daysInMonth = 30
  \/ daysInMonth = 31 ->
  scanNthFrom (Z.to_nat daysInMonth) w1 targetWeekday occurrence
    daysInMonth 1 0
  = Some (1 + (targetWeekday - w1) mod 7 + 7 * (occurrence - 1)).
Proof.
  intros Hw Ht Ho Hd.
  destruct Hd as [-> | [-> | [-> | ->]]];
    cases_1_4 occurrence; cases_0_6 w1; cases_0_6 targetWeekday;
    vm_compute; reflexivity.
Qed.

(** Scanning backwards, the last occurrence of a weekday is found within
    the last seven days. *)
Lemma scanLastFrom_closed (w1 targetWeekday daysInMonth : Z) :
  0 <= w1 <= 6 -> 0 <= targetWeekday <= 6 ->
  daysInMonth = 28 \/ daysInMonth = 29 \/ daysInMonth = 30
  \/ daysInMonth = 31 ->
  scanLastFrom (Z.to_nat daysInMonth) w1 targetWeekday daysInMonth
  = Some (daysInMonth - (w1 + daysInMonth - 1 - targetWeekday) mod 7).
Proof.
  intros Hw Ht Hd.
  destruct Hd as [-> | [-> | [-> | ->]]];
    cases_0_6 w1; cases_0_6 targetWeekday; vm_compute; reflexivity.
Qed.

(** The nth-weekday scan of a real month, for the first four
    occurrences: it returns from inside the loop, on a day of the month
    that has the target weekday. *)
Lemma findNthWeekdayOfMonth_found (year month targetWeekday occurrence : Z) :
  1 <= month <= 12 -> 0 <= targetWeekday <= 6 -> 1 <= occurrence <= 4 ->
  exists day,
    findNthWeekdayOfMonth year month targetWeekday occurrence = Some day
    /\ 7 * (occurrence - 1) < day <= 7 * occurrence
    /\ day <= getDaysInMonth year month
    /\ weekdayOfDate year month day = Some targetWeekday.
Proof.
  intros Hm Ht Ho.
  destruct (weekdayOfDate_from_first year month Hm) as (w1 & Hw1 & Hall).
  pose proof (getDaysInMonth_cases year month) as Hd. cbn zeta in Hd.
  unfold findNthWeekdayOfMonth.
  rewrite (scanNth_from _ _ _ _ _ w1 Hall).
  rewrite scanNthFrom_closed by assumption.
  pose proof (Z.mod_pos_bound (targetWeekday - w1) 7 ltac:(lia)) as Hr.
  eexists. split; [reflexivity |]. split; [lia |]. split; [lia |].
  rewrite Hall. f_equal.
  replace (w1 + (1 + (targetWeekday - w1) mod 7 + 7 * (occurrence - 1)) - 1)
    with ((targetWeekday - w1) mod 7 + (w1 + (occurrence - 1) * 7)) by ring.
  rewrite Zplus_mod_idemp_l.
  replace (targetWeekday - w1 + (w1 + (occurrence - 1) * 7))
    with (targetWeekday + (occurrence - 1) * 7) by ring.
  rewrite Z.mod_add by lia. apply Z.mod_small. lia.
Qed.

Lemma getNthWeekdayOfMonth_found (year month targetWeekday occurrence : Z) :
  1 <= month <= 12 -> 0 <= targetWeekday <= 6 -> 1 <= occurrence <= 4 ->
  let day := getNthWeekdayOfMonth year month targetWeekday occurrence in
  7 * (occurrence - 1) < day <= 7 * occurrence
  /\ weekdayOfDate year month day = Some targetWeekday.
Proof.
  intros Hm Ht Ho.
  destruct (findNthWeekdayOfMonth_found year month targetWeekday occurrence
              Hm Ht Ho) as (day & Hfind & Hrange & _ & Hwd).
  unfold getNthWeekdayOfMonth. rewrite Hfind. cbn zeta. auto.
Qed.

Lemma findLastWeekdayOfMonth_found (year month targetWeekday : Z) :
  1 <= month <= 12 -> 0 <= targetWeekday <= 6 ->
  exists day,
    findLastWeekdayOfMonth year month targetWeekday = Some day
    /\ getDaysInMonth year month - 7 < day <= getDaysInMonth year month
    /\ weekdayOfDate year month day = Some targetWeekday.
Proof.
  intros Hm Ht.
  destruct (weekdayOfDate_from_first year month Hm) as (w1 & Hw1 & Hall).
  pose proof (getDaysInMonth_cases year month) as Hd. cbn zeta in Hd.
  unfold findLastWeekdayOfMonth.
  rewrite (scanLast_from _ _ _ w1 Hall).
  rewrite scanLastFrom_closed by assumption.
  set (n := getDaysInMonth year month) in *.
  pose proof (Z.mod_pos_bound (w1 + n - 1 - targetWeekday) 7 ltac:(lia))
    as Hr.
  eexists. split; [reflexivity |]. split; [lia |].
  rewrite Hall. f_equal.
  set (r := (w1 + n - 1 - targetWeekday) mod 7) in *.
  assert (Hq : w1 + n - 1 - targetWeekday
               = 7 * ((w1 + n - 1 - targetWeekday) / 7) + r)
    by (apply Z.div_mod; lia).
  replace (w1 + (n - r) - 1)
    with (targetWeekday + (w1 + n - 1 - targetWeekday) / 7 * 7) by lia.
  rewrite Z.mod_add by lia. apply Z.mod_small. lia.
Qed.

End FullFacts.

(** ** EpochCalendar *)

(** C7.  Round trip: for every day count [days >= 0], feeding the year,
    month and day that [daysSinceEpochToDate days] produces into
    [dateToDatesSinceEpoch] returns exactly [days]. *)
Theorem roundtrip_days_date_days (days : Z) :
  0 <= days ->
  let d := Full.daysSinceEpochToDate days in
  Full.dateToDatesSinceEpoch (DateInfo.year d) (DateInfo.month d)
    (DateInfo.day d) = Some days.
Proof.
  intros Hdays. unfold Full.daysSinceEpochToDate.
  pose proof (FullFacts.stripYears_spec days Hdays 1970 ltac:(lia)) as Hy.
  cbn zeta in Hy.
  destruct (Full.stripYears 1970 days) as [year rem]. cbn [fst snd] in Hy.
  destruct Hy as (Hyear & Hrem & Hsum).
  rewrite FullFacts.daysBeforeYear_1970 in Hsum.
  pose proof (FullFacts.stripMonths_spec (Full.daysInMonthsOf year) rem 1)
    as Hm.
  rewrite FullFacts.daysInMonthsOf_sum, FullFacts.daysInMonthsOf_length in Hm.
  specialize (Hm Hrem). cbn zeta in Hm.
  destruct (stripMonths (Full.daysInMonthsOf year) rem 1) as [rem' month].
  cbn [fst snd] in Hm. destruct Hm as (k & Hk & -> & Hrem' & Hday).
  cbn [DateInfo.year DateInfo.month DateInfo.day].
  rewrite FullFacts.dateToDatesSinceEpoch_table by lia.
  f_equal. lia.
Qed.

Lemma roundtrip_days_date_days_witness :
  0 <= 19737 /\
  Full.dateToDatesSinceEpoch
    (DateInfo.year (Full.daysSinceEpochToDate 19737))
    (DateInfo.month (Full.daysSinceEpochToDate 19737))
    (DateInfo.day (Full.daysSinceEpochToDate 19737)) = Some 19737.
Proof.
  split; [lia | exact (roundtrip_days_date_days 19737 ltac:(lia))].
Defined.

(** C10.  For a negative day count the year loop and the month loop are
    both left at once: the result is year 1970, month 1 and the
    non-positive day [days + 1], while the weekday is still the wrapped
    value [(((days + 4) % 7) + 7) % 7], which lies in 0..6. *)
Theorem daysSinceEpochToDate_negative (days : Z) :
  days < 0 ->
  Full.daysSinceEpochToDate days
  = DateInfo.mk 1970 1 (days + 1) (Z.rem (Z.rem (days + 4) 7 + 7) 7)
  /\ days + 1 <= 0
  /\ 0 <= DateInfo.weekday (Full.daysSinceEpochToDate days) <= 6.
Proof.
  intros Hneg.
  assert (Hdate : Full.daysSinceEpochToDate days
                  = DateInfo.mk 1970 1 (days + 1) (weekdayOfDays days)).
  { unfold Full.daysSinceEpochToDate.
    rewrite FullFacts.stripYears_small by lia.
    change (Full.daysInMonthsOf 1970)
      with [31; 28; 31; 30; 31; 30; 31; 31; 30; 31; 30; 31].
    cbn [stripMonths].
    replace (days <? 31) with true by (symmetry; apply Z.ltb_lt; lia).
    reflexivity. }
  rewrite Hdate. cbn [DateInfo.weekday].
  split; [reflexivity |].
  split; [lia | apply weekdayOfDays_range].
Qed.

Lemma daysSinceEpochToDate_negative_witness :
  -1 < 0 /\
  Full.daysSinceEpochToDate (-1) = DateInfo.mk 1970 1 0 3.
Proof.
  split; [lia |].
  exact (proj1 (daysSinceEpochToDate_negative (-1) ltac:(lia))).
Defined.

(** ** NthWeekdayResolver *)

(** C6, as the code has it.  For every year from 1970 on, every month
    1..12, every target weekday 0..6 and every occurrence 1..4, the scan of
    [getNthWeekdayOfMonth] returns from inside its loop, on a day of the
    month that has the target weekday and lies in the occurrence-th week,
    so the fallback [return 1] is not reached; likewise the backward scan
    of [getLastWeekdayOfMonth] always returns from inside its loop. *)
Theorem weekday_scans_find_a_day (year month targetWeekday occurrence : Z) :
  1970 <= year -> 1 <= month <= 12 -> 0 <= targetWeekday <= 6 ->
  1 <= occurrence <= 4 ->
  (exists day,
      Full.findNthWeekdayOfMonth year month targetWeekday occurrence
      = Some day
      /\ Full.getNthWeekdayOfMonth year month targetWeekday occurrence = day
      /\ 1 <= day <= Full.getDaysInMonth year month
      /\ 7 * (occurrence - 1) < day <= 7 * occurrence
      /\ Full.weekdayOfDate year month day = Some targetWeekday)
  /\ (exists day,
      Full.findLastWeekdayOfMonth year month targetWeekday = Some day
      /\ Full.getLastWeekdayOfMonth year month targetWeekday = day
      /\ 1 <= day <= Full.getDaysInMonth year month
      /\ Full.weekdayOfDate year month day = Some targetWeekday).
Proof.
  intros _ Hm Ht Ho. split.
  - destruct (FullFacts.findNthWeekdayOfMonth_found year month targetWeekday
                occurrence Hm Ht Ho) as (day & Hfind & Hweek & Hdim & Hwd).
    exists day. unfold Full.getNthWeekdayOfMonth. rewrite Hfind.
    repeat split; try assumption; lia.
  - destruct (FullFacts.findLastWeekdayOfMonth_found year month targetWeekday
                Hm Ht) as (day & Hfind & Hrange & Hwd).
    pose proof (FullFacts.getDaysInMonth_cases year month) as Hd.
    cbn zeta in Hd.
    exists day. unfold Full.getLastWeekdayOfMonth. rewrite Hfind.
    repeat split; try assumption; lia.
Qed.

Lemma weekday_scans_find_a_day_witness :
  (1970 <= 2024 /\ 1 <= 11 <= 12 /\ 0 <= 4 <= 6 /\ 1 <= 4 <= 4)
  /\ exists day,
       Full.findNthWeekdayOfMonth 2024 11 4 4 = Some day
       /\ Full.getNthWeekdayOfMonth 2024 11 4 4 = day
       /\ 1 <= day <= Full.getDaysInMonth 2024 11
       /\ 7 * (4 - 1) < day <= 7 * 4
       /\ Full.weekdayOfDate 2024 11 day = Some 4.
Proof.
  split; [lia |].
  exact (proj1 (weekday_scans_find_a_day 2024 11 4 4
                  ltac:(lia) ltac:(lia) ltac:(lia) ltac:(lia))).
Defined.

(** C6 as stated fails for the fifth occurrence: February 2023 has 28
    days and so only four Mondays; the scan runs to its end and the
    fallback value 1 is returned. *)
Lemma fifth_monday_of_february_2023_falls_back :
  1970 <= 2023 /\ 1 <= 2 <= 12 /\ 0 <= 1 <= 6 /\ 1 <= 5 <= 5
  /\ Full.findNthWeekdayOfMonth 2023 2 1 5 = None
  /\ Full.getNthWeekdayOfMonth 2023 2 1 5 = 1.
Proof. repeat split; try lia; reflexivity. Qed.

(** ** DSTCalculator *)

(** C8.  [isDSTInEffect] follows the post-2007 rule: false in December,
    January and February; true from April to October; in March true
    exactly from the second Sunday on, in November true exactly before the
    first Sunday, where the two Sundays returned by the scan really are the
    second Sunday of March (a Sunday among days 8..14) and the first Sunday
    of November (a Sunday among days 1..7).  The 2024 boundaries are
    March 10 and November 3. *)
Theorem isDSTInEffect_rule (year day weekday : Z) :
  Full.isDSTInEffect year 12 day weekday = false
  /\ Full.isDSTInEffect year 1 day weekday = false
  /\ Full.isDSTInEffect year 2 day weekday = false
  /\ forallb (fun month => Full.isDSTInEffect year month day weekday)
       [4; 5; 6; 7; 8; 9; 10] = true
  /\ (Full.isDSTInEffect year 3 day weekday = true
      <-> day >= Full.getNthWeekdayOfMonth year 3 0 2)
  /\ (Full.isDSTInEffect year 11 day weekday = true
      <-> day < Full.getNthWeekdayOfMonth year 11 0 1)
  /\ (8 <= Full.getNthWeekdayOfMonth year 3 0 2 <= 14
      /\ Full.weekdayOfDate year 3 (Full.getNthWeekdayOfMonth year 3 0 2)
         = Some 0)
  /\ (1 <= Full.getNthWeekdayOfMonth year 11 0 1 <= 7
      /\ Full.weekdayOfDate year 11 (Full.getNthWeekdayOfMonth year 11 0 1)
         = Some 0)
  /\ Full.isDSTInEffect 2024 3 9 weekday = false
  /\ Full.isDSTInEffect 2024 3 10 weekday = true
  /\ Full.isDSTInEffect 2024 11 2 weekday = true
  /\ Full.isDSTInEffect 2024 11 3 weekday = false.
Proof.
  pose proof (FullFacts.getNthWeekdayOfMonth_found year 3 0 2
                ltac:(lia) ltac:(lia) ltac:(lia)) as Hmar.
  pose proof (FullFacts.getNthWeekdayOfMonth_found year 11 0 1
                ltac:(lia) ltac:(lia) ltac:(lia)) as Hnov.
  cbn zeta in Hmar, Hnov.
  repeat split; try reflexivity; try tauto; try lia.
  - unfold Full.isDSTInEffect. cbn. intros H. apply Z.geb_le in H. lia.
  - unfold Full.isDSTInEffect. cbn. intros H. apply Z.geb_le. lia.
  - unfold Full.isDSTInEffect. cbn. intros H. apply Z.ltb_lt in H. lia.
  - unfold Full.isDSTInEffect. cbn. intros H. apply Z.ltb_lt. lia.
Qed.

(** ** HolidayCalendar *)

Module HolidayFacts.
Import Full.

(** The third Monday of January is never one of the first days of the
    month, so the Martin Luther King block does not interfere with the
    New Year block. *)
Lemma early_january_not_third_monday (year day : Z) :
  day <= 14 -> (day =? getNthWeekdayOfMonth year 1 1 3) = false.
Proof.
  intros Hd.
  pose proof (FullFacts.getNthWeekdayOfMonth_found year 1 1 3
                ltac:(lia) ltac:(lia) ltac:(lia)) as H.
  cbn zeta in H. apply Z.eqb_neq. lia.
Qed.

(** A fixed holiday lives in a month of the table. *)
Lemma fixedHolidays_month (month date : Z) (name : string) :
  In (month, date, name) fixedHolidays -> 1 <= month <= 12.
Proof.
  cbn. intros [H | [H | [H | [H | []]]]]; injection H as <- <- <-; lia.
Qed.

End HolidayFacts.

(** C5, as the code has it.  If the fixed date of New Year's Day,
    Juneteenth, Independence Day or Christmas falls on a Sunday, the
    following Monday is the holiday date + 1, and for that day
    [checkNYSEHoliday] returns "<Holiday> (Observed)"; the day at holiday
    date + 2 is then a Tuesday and gets no name.  Jan 1, 2023 is a Sunday
    and Jan 2, 2023 yields "New Year's Day (Observed)"; July 4, 2021 is a
    Sunday and July 5, 2021 yields "Independence Day (Observed)". *)
Theorem sunday_holiday_observed_next_day :
  (forall year month date name,
      In (month, date, name) fixedHolidays ->
      Full.weekdayOfDate year month date = Some 0 ->
      Full.weekdayOfDate year month (date + 1) = Some 1
      /\ Full.checkNYSEHoliday year month (date + 1) 1
         = Some (name ++ " (Observed)")%string
      /\ Full.weekdayOfDate year month (date + 2) = Some 2
      /\ Full.checkNYSEHoliday year month (date + 2) 2 = None)
  /\ (Full.weekdayOfDate 2023 1 1 = Some 0
      /\ Full.weekdayOfDate 2023 1 2 = Some 1
      /\ Full.checkNYSEHoliday 2023 1 2 1 = Some "New Year's Day (Observed)")
  /\ (Full.weekdayOfDate 2021 7 4 = Some 0
      /\ Full.weekdayOfDate 2021 7 5 = Some 1
      /\ Full.checkNYSEHoliday 2021 7 5 1
         = Some "Independence Day (Observed)").
Proof.
  split; [| repeat split; reflexivity].
  intros year month date name Hin Hsun.
  pose proof (HolidayFacts.fixedHolidays_month _ _ _ Hin) as Hm.
  pose proof (FullFacts.weekdayOfDate_next _ _ _ _ Hm Hsun) as Hnext.
  split; [exact (Hnext 1) |]. split; [| split; [exact (Hnext 2) |]].
  - cbn in Hin. destruct Hin as [H | [H | [H | [H | []]]]];
      injection H as <- <- <-; reflexivity.
  - cbn in Hin. destruct Hin as [H | [H | [H | [H | []]]]];
      injection H as <- <- <-; try reflexivity.
    unfold Full.checkNYSEHoliday.
    rewrite HolidayFacts.early_january_not_third_monday by lia.
    reflexivity.
Qed.

Lemma sunday_holiday_observed_next_day_witness :
  (In (12, 25, "Christmas Day") fixedHolidays
   /\ Full.weekdayOfDate 2022 12 25 = Some 0)
  /\ Full.weekdayOfDate 2022 12 (25 + 1) = Some 1
  /\ Full.checkNYSEHoliday 2022 12 (25 + 1) 1
     = Some "Christmas Day (Observed)"
  /\ Full.weekdayOfDate 2022 12 (25 + 2) = Some 2
  /\ Full.checkNYSEHoliday 2022 12 (25 + 2) 2 = None.
Proof.
  split.
  - split; [cbn; tauto | reflexivity].
  - apply (proj1 sunday_holiday_observed_next_day 2022 12 25 "Christmas Day").
    + cbn. tauto.
    + reflexivity.
Defined.

(** C5 as stated names holiday date + 2 as the following Monday.  With
    January 1, 2023 a Sunday, January 3 (date + 2) is a Tuesday and
    [checkNYSEHoliday] returns nothing for it. *)
Lemma sunday_holiday_plus_two_is_not_observed :
  In (1, 1, "New Year's Day") fixedHolidays
  /\ Full.weekdayOfDate 2023 1 1 = Some 0
  /\ Full.weekdayOfDate 2023 1 (1 + 2) = Some 2
  /\ Full.checkNYSEHoliday 2023 1 (1 + 2) 2 = None
  /\ Full.checkNYSEHoliday 2023 1 (1 + 2) 2
     <> Some "New Year's Day (Observed)".
Proof.
  repeat split; try reflexivity; [cbn; tauto | discriminate].
Qed.

(** C4, as the code has it.  If the fixed date of New Year's Day,
    Juneteenth, Independence Day or Christmas falls on a Saturday,
    [checkNYSEHoliday] returns no name for that Saturday and none for the
    Friday before it, but the Monday two days later (holiday date + 2)
    is named "<Holiday> (Observed)".  Jan 1, 2022 is a Saturday, and
    Jan 3, 2022 is classified as "New Year's Day (Observed)". *)
Theorem saturday_holiday_observed_on_monday :
  (forall year month date name,
      In (month, date, name) fixedHolidays ->
      Full.weekdayOfDate year month date = Some 6 ->
      Full.checkNYSEHoliday year month date 6 = None
      /\ (let '(y, m, d) := dayBefore year month date in
          Full.checkNYSEHoliday y m d 5 = None)
      /\ Full.weekdayOfDate year month (date + 2) = Some 1
      /\ Full.checkNYSEHoliday year month (date + 2) 1
         = Some (name ++ " (Observed)")%string)
  /\ (Full.weekdayOfDate 2022 1 1 = Some 6
      /\ Full.weekdayOfDate 2022 1 3 = Some 1
      /\ Full.checkNYSEHoliday 2022 1 3 1
         = Some "New Year's Day (Observed)").
Proof.
  split; [| repeat split; reflexivity].
  intros year month date name Hin Hsat.
  pose proof (HolidayFacts.fixedHolidays_month _ _ _ Hin) as Hm.
  pose proof (FullFacts.weekdayOfDate_next _ _ _ _ Hm Hsat 2) as Hnext.
  cbn in Hin. destruct Hin as [H | [H | [H | [H | []]]]];
    injection H as <- <- <-;
    (split; [| split; [reflexivity | split; [exact Hnext | reflexivity]]]);
    try reflexivity.
  unfold Full.checkNYSEHoliday.
  rewrite HolidayFacts.early_january_not_third_monday by lia.
  reflexivity.
Qed.

Lemma saturday_holiday_observed_on_monday_witness :
  (In (7, 4, "Independence Day") fixedHolidays
   /\ Full.weekdayOfDate 2026 7 4 = Some 6)
  /\ Full.checkNYSEHoliday 2026 7 4 6 = None
  /\ (let '(y, m, d) := dayBefore 2026 7 4 in
      Full.checkNYSEHoliday y m d 5 = None)
  /\ Full.weekdayOfDate 2026 7 (4 + 2) = Some 1
  /\ Full.checkNYSEHoliday 2026 7 (4 + 2) 1
     = Some "Independence Day (Observed)".
Proof.
  split.
  - split; [cbn; tauto | reflexivity].
  - apply (proj1 saturday_holiday_observed_on_monday
             2026 7 4 "Independence Day").
    + cbn. tauto.
    + reflexivity.
Defined.

(** C4 as stated fails: January 1, 2022 is a Saturday, and the Monday
    after it, January 3, 2022, is classified as an observed New Year's
    Day. *)
Lemma january_3_2022_is_observed_new_year :
  Full.weekdayOfDate 2022 1 1 = Some 6
  /\ Full.weekdayOfDate 2022 1 3 = Some 1
  /\ Full.checkNYSEHoliday 2022 1 3 1 = Some "New Year's Day (Observed)"
  /\ MarketState.reason
       (Full.getCurrentNYSEMarketState (mkHost 1641222000000 0))
     = "New Year's Day (Observed)".
Proof. repeat split; reflexivity. Qed.

(** ** MarketStateEvaluator *)

(** C9.  For every Eastern instant on a weekday Monday..Friday whose date
    is not a holiday, the state is open exactly when the minutes of the
    day, [hour * 60 + minute], satisfy [570 <= minutes < 960]; below 570
    the state is the outside-hours one with the "Pre-Market" reason, from
    960 on the outside-hours one with the "After-Market" reason. *)
Theorem trading_hours_window (e : EasternTime.t) :
  1 <= EasternTime.weekday e <= 5 ->
  Full.checkNYSEHoliday (EasternTime.year e) (EasternTime.month e)
    (EasternTime.day e) (EasternTime.weekday e) = None ->
  let minutes := EasternTime.hour e * 60 + EasternTime.minute e in
  let s := Full.marketStateOf e in
  (MarketState.isOpen s = true <-> 570 <= minutes < 960)
  /\ (570 <= minutes < 960 -> MarketState.status s = "OPEN")
  /\ (minutes < 570 ->
      MarketState.status s = "AFTER_HOURS"
      /\ MarketState.isOpen s = false
      /\ MarketState.reason s
         = ("Pre-Market" ++ " (outside 9:30 AM - 4:00 PM ET)")%string)
  /\ (960 <= minutes ->
      MarketState.status s = "AFTER_HOURS"
      /\ MarketState.isOpen s = false
      /\ MarketState.reason s
         = ("After-Market" ++ " (outside 9:30 AM - 4:00 PM ET)")%string).
Proof.
  intros Hwd Hhol minutes s. subst s. unfold Full.marketStateOf.
  replace (EasternTime.weekday e =? 0) with false
    by (symmetry; apply Z.eqb_neq; lia).
  replace (EasternTime.weekday e =? 6) with false
    by (symmetry; apply Z.eqb_neq; lia).
  rewrite Hhol. cbn [orb truthy]. unfold hoursCheck. fold minutes.
  change marketOpenMinutes with 570. change marketCloseMinutes with 960.
  destruct (Z.geb_spec minutes 570) as [Hge | Hlt];
    destruct (Z.ltb_spec minutes 960) as [Hlt' | Hge'];
    cbn [andb MarketState.isOpen MarketState.status MarketState.reason];
    try (destruct (Z.ltb_spec minutes 570); try lia);
    repeat split; intros; try reflexivity; try lia; try discriminate.
Qed.

Lemma trading_hours_window_witness :
  let e := EasternTime.mk 2024 6 10 9 29 0 1 true in
  (1 <= EasternTime.weekday e <= 5
   /\ Full.checkNYSEHoliday 2024 6 10 1 = None
   /\ EasternTime.hour e * 60 + EasternTime.minute e = 569)
  /\ MarketState.status (Full.marketStateOf e) = "AFTER_HOURS"
  /\ MarketState.isOpen (Full.marketStateOf e) = false
  /\ MarketState.reason (Full.marketStateOf e)
     = "Pre-Market (outside 9:30 AM - 4:00 PM ET)".
Proof.
  intros e. split.
  - repeat split; try reflexivity; cbn; lia.
  - apply (trading_hours_window e); [cbn; lia | reflexivity | cbn; lia].
Defined.

(** The four boundary minutes on Monday, June 10, 2024. *)
Example session_boundaries_2024_06_10 :
  let at_ (hour minute : Z) :=
    Full.marketStateOf (EasternTime.mk 2024 6 10 hour minute 0 1 true) in
  (MarketState.status (at_ 9 29), MarketState.reason (at_ 9 29))
  = ("AFTER_HOURS", "Pre-Market (outside 9:30 AM - 4:00 PM ET)")
  /\ MarketState.status (at_ 9 30) = "OPEN"
  /\ MarketState.status (at_ 15 59) = "OPEN"
  /\ (MarketState.status (at_ 16 0), MarketState.reason (at_ 16 0))
     = ("AFTER_HOURS", "After-Market (outside 9:30 AM - 4:00 PM ET)").
Proof. repeat split; reflexivity. Qed.

(** End-to-end scenarios: 2024-07-04 15:00 Eastern is a holiday,
    2024-06-10 10:00 Eastern is inside the session. *)
Example independence_day_2024 :
  Full.getCurrentNYSEMarketState (mkHost 1720119600000 0)
  = MarketState.mk "HOLIDAY" false "Independence Day"
      "2024-07-04 15:00:00 EDT".
Proof. reflexivity. Qed.

Example monday_june_10_2024_open :
  Full.getCurrentNYSEMarketState (mkHost 1718028000000 0)
  = MarketState.mk "OPEN" true "Regular Trading Hours"
      "2024-06-10 10:00:00 EDT".
Proof. reflexivity. Qed.

(** The two copies of the decision procedure, run on two instants that
    agree on what the procedure looks at. *)
Lemma marketStateOf_agree (full simple : EasternTime.t) :
  EasternTime.weekday full = EasternTime.weekday simple ->
  EasternTime.hour full = EasternTime.hour simple ->
  EasternTime.minute full = EasternTime.minute simple ->
  truthy (Full.checkNYSEHoliday (EasternTime.year full)
            (EasternTime.month full) (EasternTime.day full)
            (EasternTime.weekday full))
  = Simple.isNYSEHolidaySimple (EasternTime.year simple)
      (EasternTime.month simple) (EasternTime.day simple) ->
  MarketState.status (Full.marketStateOf full)
  = MarketState.status (Simple.marketStateOf simple)
  /\ MarketState.isOpen (Full.marketStateOf full)
     = MarketState.isOpen (Simple.marketStateOf simple).
Proof.
  intros Hwd Hhour Hmin Hhol.
  unfold Full.marketStateOf, Simple.marketStateOf. cbv zeta.
  rewrite Hhol, Hwd.
  destruct ((EasternTime.weekday simple =? 0)
            || (EasternTime.weekday simple =? 6)); [split; reflexivity |].
  destruct (Simple.isNYSEHolidaySimple _ _ _); [split; reflexivity |].
  unfold hoursCheck. rewrite Hhour, Hmin.
  destruct ((_ >=? marketOpenMinutes) && (_ <? marketCloseMinutes));
    split; reflexivity.
Qed.

(** C1, as the code has it.  Both copies run the same decision procedure
    on their Eastern instant (weekend check, holiday check, trading-hours
    window), so they classify a clock reading alike whenever their two
    conversions agree on weekday, hour and minute and their two holiday
    checks agree on whether the date is a holiday. *)
Theorem engines_agree_when_conversions_agree (h : Host) :
  let full := Full.convertUTCToEastern (newDate h) in
  let simple := Simple.convertUTCToEasternSimple (newDate h) in
  EasternTime.weekday full = EasternTime.weekday simple ->
  EasternTime.hour full = EasternTime.hour simple ->
  EasternTime.minute full = EasternTime.minute simple ->
  truthy (Full.checkNYSEHoliday (EasternTime.year full)
            (EasternTime.month full) (EasternTime.day full)
            (EasternTime.weekday full))
  = Simple.isNYSEHolidaySimple (EasternTime.year simple)
      (EasternTime.month simple) (EasternTime.day simple) ->
  MarketState.status (Full.getCurrentNYSEMarketState h)
  = MarketState.status (Simple.getCurrentNYSEMarketState h)
  /\ MarketState.isOpen (Full.getCurrentNYSEMarketState h)
     = MarketState.isOpen (Simple.getCurrentNYSEMarketState h).
Proof.
  intros full simple. exact (marketStateOf_agree full simple).
Qed.

Lemma engines_agree_when_conversions_agree_witness :
  let h := mkHost 54000000 0 in
  MarketState.status (Full.getCurrentNYSEMarketState h)
  = MarketState.status (Simple.getCurrentNYSEMarketState h)
  /\ MarketState.isOpen (Full.getCurrentNYSEMarketState h)
     = MarketState.isOpen (Simple.getCurrentNYSEMarketState h).
Proof.
  intros h.
  apply (engines_agree_when_conversions_agree h); vm_compute; reflexivity.
Defined.

(** C1 as stated fails: at 2024-01-15 15:00:00 UTC (10:00 Eastern on
    Martin Luther King Jr. Day) the full engine answers HOLIDAY and the
    simplified engine, which knows three holidays and counts 365-day
    years, answers OPEN. *)
Lemma engines_differ_on_mlk_day_2024 :
  let h := mkHost 1705330800000 0 in
  MarketState.status (Full.getCurrentNYSEMarketState h) = "HOLIDAY"
  /\ MarketState.status (Simple.getCurrentNYSEMarketState h) = "OPEN"
  /\ MarketState.status (Full.getCurrentNYSEMarketState h)
     <> MarketState.status (Simple.getCurrentNYSEMarketState h).
Proof. intros h. vm_compute. repeat split; discriminate. Qed.

(** C2, as the code has it.  [getCurrentNYSEMarketState] has no time
    parameter: it reads the clock itself.  Its result is a function of
    that reading alone, in fact of its whole epoch second: two runs, on
    hosts that differ in anything else, whose clock readings fall in the
    same second return identical records. *)
Theorem market_state_determined_by_clock_reading (h1 h2 : Host) :
  clockMillis h1 / 1000 = clockMillis h2 / 1000 ->
  Full.getCurrentNYSEMarketState h1 = Full.getCurrentNYSEMarketState h2
  /\ Simple.getCurrentNYSEMarketState h1
     = Simple.getCurrentNYSEMarketState h2.
Proof.
  intros Hclock.
  unfold Full.getCurrentNYSEMarketState, Simple.getCurrentNYSEMarketState,
    Full.convertUTCToEastern, Simple.convertUTCToEasternSimple,
    newDate, getTime.
  rewrite Hclock. split; reflexivity.
Qed.

Lemma market_state_determined_by_clock_reading_witness :
  let h1 := mkHost 1718028000000 0 in
  let h2 := mkHost 1718028000999 (-540) in
  clockMillis h1 / 1000 = clockMillis h2 / 1000
  /\ Full.getCurrentNYSEMarketState h1 = Full.getCurrentNYSEMarketState h2
  /\ Simple.getCurrentNYSEMarketState h1
     = Simple.getCurrentNYSEMarketState h2.
Proof.
  intros h1 h2. split; [reflexivity |].
  apply (market_state_determined_by_clock_reading h1 h2). reflexivity.
Defined.

(** C2 as stated fails: the evaluation takes no input at all, and two
    calls with the same (empty) argument list return different states
    when the clock has moved in between. *)
Lemma market_state_reads_the_clock :
  let morning := mkHost 1718028000000 0 in
  let evening := mkHost 1718064000000 0 in
  MarketState.status (Full.getCurrentNYSEMarketState morning) = "OPEN"
  /\ MarketState.status (Full.getCurrentNYSEMarketState evening)
     = "AFTER_HOURS"
  /\ Full.getCurrentNYSEMarketState morning
     <> Full.getCurrentNYSEMarketState evening
  /\ Simple.getCurrentNYSEMarketState morning
     <> Simple.getCurrentNYSEMarketState evening.
Proof. intros morning evening. vm_compute. repeat split; discriminate. Qed.

(** C3 at a failing input.  At 2024-06-08 01:00:00 UTC, which is Friday
    2024-06-07 21:00:00 in New York, [convertUTCToEastern] takes hour,
    minute and second from the shifted timestamp but year, month, day and
    weekday from the unshifted UTC day: it reports Saturday, June 8, and
    the evaluator answers WEEKEND.  The date re-derived from
    [floor (easternTimestamp / 86400)] is Friday, June 7, which is what
    the simplified conversion uses for its weekday. *)
Theorem convertUTCToEastern_keeps_utc_date :
  let utcTimestamp := 1717808400 in
  let e := Full.convertUTCToEastern (utcTimestamp * 1000) in
  let easternTimestamp := utcTimestamp + (-4) * 3600 in
  EasternTime.isDST e = true
  /\ (EasternTime.hour e, EasternTime.minute e, EasternTime.second e)
     = (21, 0, 0)
  /\ (EasternTime.year e, EasternTime.month e, EasternTime.day e,
      EasternTime.weekday e) = (2024, 6, 8, 6)
  /\ Full.daysSinceEpochToDate (easternTimestamp / 86400)
     = DateInfo.mk 2024 6 7 5
  /\ MarketState.easternTime
       (Full.getCurrentNYSEMarketState (mkHost (utcTimestamp * 1000) 0))
     = "2024-06-08 21:00:00 EDT"
  /\ MarketState.status
       (Full.getCurrentNYSEMarketState (mkHost (utcTimestamp * 1000) 0))
     = "WEEKEND"
  /\ EasternTime.weekday
       (Simple.convertUTCToEasternSimple (utcTimestamp * 1000)) = 5.
Proof. repeat split; reflexivity. Qed.

(** Hour, minute and second are the digits of the second of the day. *)
Lemma clock_fields (s : Z) :
  0 <= s -> s / 3600 * 3600 + Z.rem s 3600 / 60 * 60 + Z.rem s 60 = s.
Proof.
  intros Hs. rewrite !Z.rem_mod_nonneg by lia.
  Z.div_mod_to_equations. lia.
Qed.

(** The time of day of the full conversion is that of the shifted
    timestamp. *)
Lemma convertUTCToEastern_time_is_eastern (utcDate : Date) :
  let utcTimestamp := getTime utcDate / 1000 in
  let e := Full.convertUTCToEastern utcDate in
  let offsetHours := if EasternTime.isDST e then -4 else -5 in
  let easternTimestamp := utcTimestamp + offsetHours * 3600 in
  EasternTime.hour e * 3600 + EasternTime.minute e * 60
  + EasternTime.second e = easternTimestamp mod 86400.
Proof.
  unfold Full.convertUTCToEastern.
  cbn [EasternTime.hour EasternTime.minute EasternTime.second
       EasternTime.isDST].
  cbv zeta. rewrite secondsOfDay_mod.
  apply clock_fields.
  apply Z.mod_pos_bound. lia.
Qed.

(** The date fields of the full conversion are always those of the UTC
    day; those of the simplified conversion are always derived from the
    shifted timestamp. *)
Lemma convertUTCToEastern_date_is_utc (utcDate : Date) :
  let e := Full.convertUTCToEastern utcDate in
  DateInfo.mk (EasternTime.year e) (EasternTime.month e)
    (EasternTime.day e) (EasternTime.weekday e)
  = Full.daysSinceEpochToDate (getTime utcDate / 1000 / 86400).
Proof.
  unfold Full.convertUTCToEastern. cbn.
  destruct (Full.daysSinceEpochToDate _). reflexivity.
Qed.

Lemma convertUTCToEasternSimple_date_is_eastern (utcDate : Date) :
  let utcTimestamp := getTime utcDate / 1000 in
  let e := Simple.convertUTCToEasternSimple utcDate in
  let offsetHours := if EasternTime.isDST e then -4 else -5 in
  let easternTimestamp := utcTimestamp + offsetHours * 3600 in
  (EasternTime.year e, EasternTime.month e, EasternTime.day e)
  = Simple.daysToDateSimple (easternTimestamp / 86400)
  /\ EasternTime.weekday e = weekdayOfDays (easternTimestamp / 86400)
  /\ EasternTime.hour e * 3600 + EasternTime.minute e * 60
     + EasternTime.second e = easternTimestamp mod 86400.
Proof.
  unfold Simple.convertUTCToEasternSimple. cbv zeta.
  set (ts := getTime utcDate / 1000).
  set (isDST := Simple.isDaylightSavingTimeSimple ts).
  assert (Hoff : (if isDST then -4 * 3600 else -5 * 3600)
                 = (if isDST then -4 else -5) * 3600)
    by (destruct isDST; reflexivity).
  destruct (Simple.daysToDateSimple
              ((ts + (if isDST then -4 * 3600 else -5 * 3600)) / 86400))
    as [[year month] day] eqn:Hdate.
  cbn [EasternTime.year EasternTime.month EasternTime.day EasternTime.hour
       EasternTime.minute EasternTime.second EasternTime.weekday
       EasternTime.isDST].
  rewrite <- Hoff. rewrite Hdate. split; [reflexivity |].
  split; [reflexivity |].
  set (t := ts + (if isDST then -4 * 3600 else -5 * 3600)).
  assert (Hs : (if Z.rem t 86400 <? 0 then Z.rem t 86400 + 86400
                else Z.rem t 86400) = t mod 86400).
  { pose proof (Z.mod_pos_bound t 86400 ltac:(lia)).
    pose proof (Z.rem_bound_abs t 86400 ltac:(lia)).
    destruct (Z.ltb_spec (Z.rem t 86400) 0).
    - apply (Z.mod_unique _ _ (t ÷ 86400 - 1)); [lia |].
      pose proof (Z.quot_rem' t 86400). lia.
    - apply (Z.mod_unique _ _ (t ÷ 86400)); [lia |].
      pose proof (Z.quot_rem' t 86400). lia. }
  rewrite Hs. apply clock_fields. apply Z.mod_pos_bound. lia.
Qed.

(** * Further properties of the calendar *)

Module CalendarFacts.
Import Full.

Lemma yearDays_pos (y : Z) : 0 < yearDays y.
Proof. destruct (FullFacts.yearDays_cases y); lia. Qed.

Lemma daysBeforeYear_mono (a : Z) :
  1970 <= a -> forall b, a <= b -> daysBeforeYear a <= daysBeforeYear b.
Proof.
  intros Ha b Hab.
  assert (Hn : exists n : nat, b = a + Z.of_nat n)
    by (exists (Z.to_nat (b - a)); lia).
  destruct Hn as [n ->]. clear Hab.
  induction n as [| n IH]; [rewrite Z.add_0_r; lia |].
  replace (a + Z.of_nat (S n)) with (a + Z.of_nat n + 1) by lia.
  rewrite FullFacts.daysBeforeYear_succ by lia.
  pose proof (yearDays_pos (a + Z.of_nat n)). lia.
Qed.

Lemma daysBeforeYear_nonneg (y : Z) : 1970 <= y -> 0 <= daysBeforeYear y.
Proof.
  intros Hy. rewrite <- FullFacts.daysBeforeYear_1970.
  apply daysBeforeYear_mono; lia.
Qed.

(** The switch of [getDaysInMonth] and the two month tables agree. *)
Lemma table_is_getDaysInMonth (year : Z) (k : nat) :
  (k < 12)%nat ->
  nth k (daysInMonthsOf year) 0 = getDaysInMonth year (1 + Z.of_nat k).
Proof.
  intros Hk. unfold daysInMonthsOf, getDaysInMonth.
  destruct (isLeapYear year);
    do 12 (destruct k as [| k]; [reflexivity |]); lia.
Qed.

(** What [daysSinceEpochToDate] computes for a day count from the epoch
    on: the year that contains the day, the month that contains it, and
    the offset inside that month. *)
Lemma daysSinceEpochToDate_decompose (days : Z) :
  0 <= days ->
  exists (year : Z) (k : nat) (r : Z),
    1970 <= year /\ (k < 12)%nat
    /\ 0 <= r < nth k (daysInMonthsOf year) 0
    /\ days = daysBeforeYear year
              + sumList (firstn k (daysInMonthsOf year)) + r
    /\ daysSinceEpochToDate days
       = DateInfo.mk year (1 + Z.of_nat k) (r + 1) (weekdayOfDays days).
Proof.
  intros Hdays. unfold daysSinceEpochToDate.
  pose proof (FullFacts.stripYears_spec days Hdays 1970 ltac:(lia)) as Hy.
  cbn zeta in Hy.
  destruct (stripYears 1970 days) as [year rem]. cbn [fst snd] in Hy.
  destruct Hy as (Hyear & Hrem & Hsum).
  rewrite FullFacts.daysBeforeYear_1970 in Hsum.
  pose proof (FullFacts.stripMonths_spec (daysInMonthsOf year) rem 1) as Hm.
  rewrite FullFacts.daysInMonthsOf_sum, FullFacts.daysInMonthsOf_length in Hm.
  specialize (Hm Hrem). cbn zeta in Hm.
  destruct (stripMonths (daysInMonthsOf year) rem 1) as [rem' month].
  cbn [fst snd] in Hm. destruct Hm as (k & Hk & -> & Hrem' & Hday).
  exists year, k, rem'. repeat split; try assumption; lia.
Qed.

(** The year loop finds the year of any day count built from a year and
    an offset inside it. *)
Lemma stripYears_unique (year r : Z) (n : nat) :
  forall y0, 1970 <= y0 -> year = y0 + Z.of_nat n ->
  0 <= r < yearDays year ->
  stripYears y0 (daysBeforeYear year - daysBeforeYear y0 + r) = (year, r).
Proof.
  induction n as [| n IH]; intros y0 Hy0 Hyear Hr.
  - replace y0 with year by lia. rewrite Z.sub_diag, Z.add_0_l.
    apply FullFacts.stripYears_break. lia.
  - pose proof (daysBeforeYear_mono (y0 + 1) ltac:(lia) year ltac:(lia))
      as Hmono.
    rewrite FullFacts.daysBeforeYear_succ in Hmono by assumption.
    rewrite FullFacts.stripYears_step by lia.
    rewrite <- (IH (y0 + 1)) by (try assumption; lia).
    f_equal. rewrite FullFacts.daysBeforeYear_succ by assumption. ring.
Qed.

(** The month loop finds the month of any offset built from a month and
    a day inside it. *)
Lemma stripMonths_unique (daysInMonths : list Z) :
  Forall (fun x => 0 <= x) daysInMonths ->
  forall (k : nat) r month,
    (k < List.length daysInMonths)%nat ->
    0 <= r < nth k daysInMonths 0 ->
    stripMonths daysInMonths (sumList (firstn k daysInMonths) + r) month
    = (r, month + Z.of_nat k).
Proof.
  induction 1 as [| x rest Hx Hrest IH]; intros k r month Hk Hr.
  - cbn in Hk. lia.
  - destruct k as [| k].
    + cbn [firstn sumList fold_right nth stripMonths] in *.
      replace (0 + r <? x) with true by (symmetry; apply Z.ltb_lt; lia).
      f_equal; lia.
    + cbn [firstn sumList fold_right nth stripMonths List.length] in *.
      fold (sumList (firstn k rest)).
      assert (Hs : 0 <= sumList (firstn k rest)).
      { clear - Hrest. revert k.
        induction Hrest as [| y l Hy Hl IHl]; intros [| k]; cbn; try lia.
        fold (sumList (firstn k l)). specialize (IHl k). lia. }
      replace (x + sumList (firstn k rest) + r <? x) with false
        by (symmetry; apply Z.ltb_ge; lia).
      replace (x + sumList (firstn k rest) + r - x)
        with (sumList (firstn k rest) + r) by ring.
      rewrite IH by (try assumption; lia). f_equal. lia.
Qed.

Lemma daysInMonthsOf_nonneg (year : Z) :
  Forall (fun x => 0 <= x) (daysInMonthsOf year).
Proof.
  unfold daysInMonthsOf.
  destruct (isLeapYear year); repeat constructor; lia.
Qed.

Lemma firstn_sum_bound (year : Z) (k : nat) :
  (k < 12)%nat ->
  0 <= sumList (firstn k (daysInMonthsOf year))
  /\ sumList (firstn k (daysInMonthsOf year))
     + nth k (daysInMonthsOf year) 0 <= yearDays year.
Proof.
  intros Hk. unfold daysInMonthsOf, yearDays.
  destruct (isLeapYear year);
    do 12 (destruct k as [| k]; [cbn; lia |]); lia.
Qed.

(** Leap years among the years [1 .. y], by the Gregorian rule. *)
Lemma leap_count_step (y : Z) :
  0 < y ->
  y / 4 - y / 100 + y / 400
  = (y - 1) / 4 - (y - 1) / 100 + (y - 1) / 400
    + (if isLeapYear y then 1 else 0).
Proof.
  intros Hy. unfold isLeapYear. rewrite !Z.rem_mod_nonneg by lia.
  destruct (Z.eqb_spec (y mod 4) 0), (Z.eqb_spec (y mod 100) 0),
    (Z.eqb_spec (y mod 400) 0);
    cbn [andb orb negb]; Z.div_mod_to_equations; lia.
Qed.

End CalendarFacts.

(** X1.  From the epoch on, [daysSinceEpochToDate] returns a real calendar
    date: a year from 1970 on, a month 1..12, a day between 1 and the
    length of that month, and a weekday 0..6 that is the weekday the two
    scans compute for that same date. *)
Theorem daysSinceEpochToDate_valid_date (days : Z) :
  0 <= days ->
  let d := Full.daysSinceEpochToDate days in
  1970 <= DateInfo.year d
  /\ 1 <= DateInfo.month d <= 12
  /\ 1 <= DateInfo.day d
     <= Full.getDaysInMonth (DateInfo.year d) (DateInfo.month d)
  /\ 0 <= DateInfo.weekday d <= 6
  /\ Full.weekdayOfDate (DateInfo.year d) (DateInfo.month d)
       (DateInfo.day d) = Some (DateInfo.weekday d).
Proof.
  intros Hdays.
  destruct (CalendarFacts.daysSinceEpochToDate_decompose days Hdays)
    as (year & k & r & Hy & Hk & Hr & Hsum & ->).
  cbn [DateInfo.year DateInfo.month DateInfo.day DateInfo.weekday].
  rewrite <- CalendarFacts.table_is_getDaysInMonth by assumption.
  repeat split; try lia; try apply weekdayOfDays_range.
  unfold Full.weekdayOfDate.
  rewrite FullFacts.dateToDatesSinceEpoch_table by lia.
  cbn [option_map]. do 2 f_equal. lia.
Qed.

Lemma daysSinceEpochToDate_valid_date_witness :
  0 <= 19782
  /\ Full.daysSinceEpochToDate 19782 = DateInfo.mk 2024 2 29 4
  /\ 1 <= 29 <= Full.getDaysInMonth 2024 2.
Proof.
  split; [lia |]. split; [reflexivity |].
  exact (proj1 (proj2 (proj2
           (daysSinceEpochToDate_valid_date 19782 ltac:(lia))))).
Defined.

(** X2.  The other round trip: every real calendar date from 1970 on
    (month 1..12, day within the month) has a non-negative day count, and
    [daysSinceEpochToDate] maps that count back to the same year, month
    and day. *)
Theorem roundtrip_date_days_date (year month day : Z) :
  1970 <= year -> 1 <= month <= 12 ->
  1 <= day <= Full.getDaysInMonth year month ->
  exists days,
    Full.dateToDatesSinceEpoch year month day = Some days
    /\ 0 <= days
    /\ Full.daysSinceEpochToDate days
       = DateInfo.mk year month day (weekdayOfDays days).
Proof.
  intros Hy Hm Hd.
  assert (Hk : exists k : nat, (k < 12)%nat /\ month = 1 + Z.of_nat k)
    by (exists (Z.to_nat (month - 1)); lia).
  destruct Hk as (k & Hk & ->).
  rewrite <- CalendarFacts.table_is_getDaysInMonth in Hd by assumption.
  rewrite FullFacts.dateToDatesSinceEpoch_table by lia.
  pose proof (CalendarFacts.daysBeforeYear_nonneg year Hy) as Hnn.
  pose proof (CalendarFacts.firstn_sum_bound year k Hk) as [Hs0 Hs1].
  eexists. split; [reflexivity |]. split; [lia |].
  unfold Full.daysSinceEpochToDate.
  set (off := sumList (firstn k (Full.daysInMonthsOf year)) + (day - 1)).
  replace (daysBeforeYear year
           + sumList (firstn k (Full.daysInMonthsOf year)) + day - 1)
    with (daysBeforeYear year - daysBeforeYear 1970 + off)
    by (rewrite FullFacts.daysBeforeYear_1970; unfold off; ring).
  rewrite (CalendarFacts.stripYears_unique year off
             (Z.to_nat (year - 1970)) 1970)
    by (unfold off; lia).
  unfold off.
  rewrite CalendarFacts.stripMonths_unique
    by (try apply CalendarFacts.daysInMonthsOf_nonneg;
        try rewrite FullFacts.daysInMonthsOf_length; lia).
  f_equal. lia.
Qed.

Lemma roundtrip_date_days_date_witness :
  (1970 <= 2024 /\ 1 <= 2 <= 12 /\ 1 <= 29 <= Full.getDaysInMonth 2024 2)
  /\ exists days,
       Full.dateToDatesSinceEpoch 2024 2 29 = Some days
       /\ 0 <= days
       /\ Full.daysSinceEpochToDate days
          = DateInfo.mk 2024 2 29 (weekdayOfDays days).
Proof.
  split; [cbn; lia |].
  apply (roundtrip_date_days_date 2024 2 29); cbn; lia.
Defined.

(** X3.  The year loop of [dateToDatesSinceEpoch] agrees with the
    Gregorian day count: January 1 of a year from 1970 on is
    [365 * (year - 1970)] days after the epoch plus one day for every leap
    year in between, counted by the divisions by 4, 100 and 400. *)
Theorem dateToDatesSinceEpoch_january_first (year : Z) :
  1970 <= year ->
  Full.dateToDatesSinceEpoch year 1 1
  = Some (365 * (year - 1970)
          + ((year - 1) / 4 - (year - 1) / 100 + (year - 1) / 400 - 477)).
Proof.
  intros Hy.
  change 1 with (1 + Z.of_nat 0) at 1.
  rewrite FullFacts.dateToDatesSinceEpoch_table by lia.
  cbn [firstn sumList fold_right]. f_equal.
  assert (H : daysBeforeYear year
              = 365 * (year - 1970)
                + ((year - 1) / 4 - (year - 1) / 100 + (year - 1) / 400
                   - 477)).
  { assert (Hn : exists n : nat, year = 1970 + Z.of_nat n)
      by (exists (Z.to_nat (year - 1970)); lia).
    destruct Hn as [n ->]. clear Hy.
    induction n as [| n IH]; [reflexivity |].
    replace (1970 + Z.of_nat (S n)) with (1970 + Z.of_nat n + 1) by lia.
    rewrite FullFacts.daysBeforeYear_succ by lia. rewrite IH.
    replace (1970 + Z.of_nat n + 1 - 1) with (1970 + Z.of_nat n) by ring.
    rewrite (CalendarFacts.leap_count_step (1970 + Z.of_nat n)) by lia.
    unfold Full.yearDays. destruct (Full.isLeapYear _); ring. }
  rewrite H. ring.
Qed.

Lemma dateToDatesSinceEpoch_january_first_witness :
  1970 <= 2024 /\ Full.dateToDatesSinceEpoch 2024 1 1 = Some 19723.
Proof.
  split; [lia |].
  exact (dateToDatesSinceEpoch_january_first 2024 ltac:(lia)).
Defined.

(** * Further properties of the weekday scans *)

Module ScanFacts.
Import Full.

(** The forward scan in closed form, for any occurrence and any month
    length: from [day] on, the next day with the target weekday is
    [g] days away, and later ones follow every 7 days. *)
Lemma scanNthFrom_general (w1 targetWeekday occurrence daysInMonth : Z) :
  0 <= targetWeekday <= 6 ->
  forall (trips : nat) (day count : Z),
    Z.of_nat trips = daysInMonth - day + 1 ->
    let g := (targetWeekday - (w1 + day - 1)) mod 7 in
    let found := day + g + 7 * (occurrence - count - 1) in
    scanNthFrom trips w1 targetWeekday occurrence daysInMonth day count
    = if (count <? occurrence) && (found <=? daysInMonth)
      then Some found else None.
Proof.
  intros Ht. induction trips as [| k IH]; intros day count Htrips g found.
  - cbn [scanNthFrom].
    pose proof (Z.mod_pos_bound (targetWeekday - (w1 + day - 1)) 7
                  ltac:(lia)) as Hg. fold g in Hg.
    destruct (Z.ltb_spec count occurrence); [| reflexivity].
    destruct (Z.leb_spec found daysInMonth); [| reflexivity].
    unfold found in *. lia.
  - cbn [scanNthFrom].
    replace (day <=? daysInMonth) with true
      by (symmetry; apply Z.leb_le; lia).
    rewrite !IH by lia. cbv zeta.
    pose proof (Z.mod_pos_bound (targetWeekday - (w1 + day - 1)) 7
                  ltac:(lia)) as Hg. fold g in Hg.
    pose proof (Z.mod_pos_bound (targetWeekday - (w1 + (day + 1) - 1)) 7
                  ltac:(lia)) as Hg'.
    set (g' := (targetWeekday - (w1 + (day + 1) - 1)) mod 7) in *.
    pose proof (Z.mod_pos_bound (w1 + day - 1) 7 ltac:(lia)) as Hm.
    assert (Hrel : ((w1 + day - 1) mod 7 = targetWeekday
                    /\ g = 0 /\ g' = 6)
                   \/ ((w1 + day - 1) mod 7 <> targetWeekday
                       /\ 0 < g /\ g' = g - 1)).
    { unfold g, g'. clear - Ht Hm. Z.div_mod_to_equations. lia. }
    unfold found.
    destruct Hrel as [(Hmatch & Hg0 & Hg6) | (Hno & Hgpos & Hgpred)].
    + rewrite Hmatch, Z.eqb_refl, Hg0, Hg6.
      destruct (Z.eqb_spec (count + 1) occurrence) as [Heq | Hne].
      * replace (count <? occurrence) with true
          by (symmetry; apply Z.ltb_lt; lia).
        replace (day + 0 + 7 * (occurrence - count - 1)) with day by lia.
        replace (day <=? daysInMonth) with true
          by (symmetry; apply Z.leb_le; lia).
        reflexivity.
      * replace (day + 1 + 6 + 7 * (occurrence - (count + 1) - 1))
          with (day + 0 + 7 * (occurrence - count - 1)) by ring.
        destruct (Z.ltb_spec (count + 1) occurrence),
          (Z.ltb_spec count occurrence); try lia; reflexivity.
    + replace ((w1 + day - 1) mod 7 =? targetWeekday) with false
        by (symmetry; apply Z.eqb_neq; assumption).
      rewrite Hgpred.
      replace (day + 1 + (g - 1) + 7 * (occurrence - count - 1))
        with (day + g + 7 * (occurrence - count - 1)) by ring.
      reflexivity.
Qed.

(** A scan that never sees a matching weekday runs to its end. *)
Lemma scanNth_no_weekday (year month targetWeekday occurrence : Z) :
  (forall day, weekdayOfDate year month day = None) ->
  forall trips daysInMonth day count,
    scanNth trips year month targetWeekday occurrence daysInMonth day count
    = None.
Proof.
  intros Hnone. induction trips as [| k IH]; intros dim day count;
    [reflexivity |].
  cbn [scanNth]. rewrite Hnone. cbn [weekdayIs]. rewrite IH.
  destruct (day <=? dim); reflexivity.
Qed.

Lemma scanLast_no_weekday (year month targetWeekday : Z) :
  (forall day, weekdayOfDate year month day = None) ->
  forall trips day, scanLast trips year month targetWeekday day = None.
Proof.
  intros Hnone. induction trips as [| k IH]; intros day; [reflexivity |].
  cbn [scanLast]. rewrite Hnone. cbn [weekdayIs]. rewrite IH.
  destruct (day >=? 1); reflexivity.
Qed.

Lemma addMonths_S (k : nat) (daysInMonths : list Z) (m month : Z)
  (days : option Z) :
  m < month ->
  addMonths (S k) daysInMonths m month days
  = addMonths k daysInMonths (m + 1) month
      (plus days (tableAt daysInMonths (m - 1))).
Proof.
  intros H. cbn [addMonths].
  replace (m <? month) with true by (symmetry; apply Z.ltb_lt; lia).
  reflexivity.
Qed.

Lemma addMonths_NaN (k : nat) (daysInMonths : list Z) :
  forall m month, addMonths k daysInMonths m month None = None.
Proof.
  induction k as [| k IH]; intros m month; [reflexivity |].
  cbn [addMonths]. destruct (m <? month); [apply IH | reflexivity].
Qed.

(** Reading past the twelfth entry of the month table makes the day
    count [NaN]. *)
Lemma dateToDatesSinceEpoch_NaN (year month day : Z) :
  14 <= month -> dateToDatesSinceEpoch year month day = None.
Proof.
  intros Hm. unfold dateToDatesSinceEpoch.
  set (d0 := addYears _ _ _ _).
  assert (Hk : exists k, Z.to_nat (month - 1) = (13 + k)%nat)
    by (exists (Z.to_nat (month - 1) - 13)%nat; lia).
  destruct Hk as [k ->].
  assert (H : addMonths (13 + k) (daysInMonthsOf year) 1 month (Some d0)
              = None).
  { cbn [Nat.add]. unfold daysInMonthsOf.
    destruct (isLeapYear year);
      do 13 (rewrite addMonths_S by lia; cbn [Z.add Pos.add Pos.succ]);
      cbn; apply addMonths_NaN. }
  rewrite H. reflexivity.
Qed.

(** The forward scan of a real month in closed form. *)
Lemma findNthWeekdayOfMonth_closed
  (year month targetWeekday w1 occurrence : Z) :
  1 <= month <= 12 -> 0 <= targetWeekday <= 6 ->
  weekdayOfDate year month 1 = Some w1 ->
  let day := 1 + (targetWeekday - w1) mod 7 + 7 * (occurrence - 1) in
  findNthWeekdayOfMonth year month targetWeekday occurrence
  = (if (1 <=? occurrence) && (day <=? getDaysInMonth year month)
     then Some day else None).
Proof.
  intros Hm Ht Hw1 day.
  destruct (FullFacts.weekdayOfDate_from_first year month Hm)
    as (w & Hw & Hall).
  assert (w = w1) as ->.
  { rewrite Hall in Hw1. injection Hw1 as <-.
    replace (w + 1 - 1) with w by ring. symmetry. apply Z.mod_small. lia. }
  pose proof (FullFacts.getDaysInMonth_cases year month) as Hd.
  cbn zeta in Hd.
  unfold findNthWeekdayOfMonth.
  rewrite (FullFacts.scanNth_from _ _ _ _ _ w1 Hall).
  rewrite (scanNthFrom_general w1 targetWeekday occurrence
             (getDaysInMonth year month) Ht) by lia.
  cbv zeta.
  replace (w1 + 1 - 1) with w1 by ring.
  replace (1 + (targetWeekday - w1) mod 7 + 7 * (occurrence - 0 - 1))
    with day by (unfold day; ring).
  destruct (Z.ltb_spec 0 occurrence), (Z.leb_spec 1 occurrence);
    try lia; reflexivity.
Qed.

End ScanFacts.

(** X4.  A month number of 14 or more reads past the month table: the
    day count is [NaN], no weekday ever matches, and both
    [getNthWeekdayOfMonth] and [getLastWeekdayOfMonth] return their
    fallback value 1, whatever the weekday and occurrence asked for. *)
Theorem month_beyond_table_falls_back
  (year month day targetWeekday occurrence : Z) :
  14 <= month ->
  Full.dateToDatesSinceEpoch year month day = None
  /\ Full.findNthWeekdayOfMonth year month targetWeekday occurrence = None
  /\ Full.getNthWeekdayOfMonth year month targetWeekday occurrence = 1
  /\ Full.findLastWeekdayOfMonth year month targetWeekday = None
  /\ Full.getLastWeekdayOfMonth year month targetWeekday = 1.
Proof.
  intros Hm.
  assert (Hwd : forall d, Full.weekdayOfDate year month d = None).
  { intros d. unfold Full.weekdayOfDate.
    now rewrite ScanFacts.dateToDatesSinceEpoch_NaN. }
  assert (Hnth : Full.findNthWeekdayOfMonth year month targetWeekday
                   occurrence = None)
    by (apply ScanFacts.scanNth_no_weekday; exact Hwd).
  assert (Hlast : Full.findLastWeekdayOfMonth year month targetWeekday
                  = None)
    by (apply ScanFacts.scanLast_no_weekday; exact Hwd).
  unfold Full.getNthWeekdayOfMonth, Full.getLastWeekdayOfMonth.
  rewrite Hnth, Hlast.
  repeat split. now apply ScanFacts.dateToDatesSinceEpoch_NaN.
Qed.

Lemma month_beyond_table_falls_back_witness :
  14 <= 14
  /\ Full.dateToDatesSinceEpoch 2024 14 1 = None
  /\ Full.getNthWeekdayOfMonth 2024 14 1 1 = 1.
Proof.
  split; [lia |].
  pose proof (month_beyond_table_falls_back 2024 14 1 1 1 ltac:(lia))
    as (H1 & _ & H3 & _).
  split; [exact H1 | exact H3].
Defined.

(** X5.  Dates before 1970 are not given negative day counts: for a year
    up to 1970 the year loop of [dateToDatesSinceEpoch] does not run, so
    the result only counts the months and days of that year and lies
    between 0 and 365 for every real date of the year. *)
Theorem dateToDatesSinceEpoch_before_epoch (year month day : Z) :
  year <= 1970 -> 1 <= month <= 12 ->
  1 <= day <= Full.getDaysInMonth year month ->
  exists days,
    Full.dateToDatesSinceEpoch year month day = Some days
    /\ 0 <= days <= 365
    /\ Full.dateToDatesSinceEpoch year 1 1 = Some 0.
Proof.
  intros Hy Hm Hd.
  assert (Hk : exists k : nat, (k < 12)%nat /\ month = 1 + Z.of_nat k)
    by (exists (Z.to_nat (month - 1)); lia).
  destruct Hk as (k & Hk & ->).
  rewrite <- CalendarFacts.table_is_getDaysInMonth in Hd by assumption.
  assert (H0 : daysBeforeYear year = 0).
  { unfold daysBeforeYear.
    replace (Z.to_nat (year - 1970)) with 0%nat by lia. reflexivity. }
  pose proof (CalendarFacts.firstn_sum_bound year k Hk) as [Hs0 Hs1].
  pose proof (FullFacts.yearDays_cases year) as Hyd.
  pose proof (FullFacts.dateToDatesSinceEpoch_table year 0 1 ltac:(lia))
    as Hjan.
  rewrite H0 in Hjan. cbn in Hjan.
  rewrite FullFacts.dateToDatesSinceEpoch_table by lia.
  rewrite H0.
  eexists. split; [reflexivity |]. split; [lia | exact Hjan].
Qed.

Lemma dateToDatesSinceEpoch_before_epoch_witness :
  (1969 <= 1970 /\ 1 <= 12 <= 12
   /\ 1 <= 31 <= Full.getDaysInMonth 1969 12)
  /\ exists days,
       Full.dateToDatesSinceEpoch 1969 12 31 = Some days
       /\ 0 <= days <= 365
       /\ Full.dateToDatesSinceEpoch 1969 1 1 = Some 0.
Proof.
  split; [cbn; lia |].
  apply (dateToDatesSinceEpoch_before_epoch 1969 12 31); cbn; lia.
Defined.

(** X6.  [getNthWeekdayOfMonth] in closed form, for every occurrence.
    With [w1] the weekday of the first of the month, the scan returns day
    [1 + (targetWeekday - w1) mod 7 + 7 * (occurrence - 1)] when the
    occurrence is at least 1 and that day still lies in the month, and
    runs into the fallback otherwise; so occurrences below 1 or above 5
    always give the fallback value 1. *)
Theorem getNthWeekdayOfMonth_closed_form
  (year month targetWeekday w1 : Z) :
  1 <= month <= 12 -> 0 <= targetWeekday <= 6 ->
  Full.weekdayOfDate year month 1 = Some w1 ->
  forall occurrence,
    let day := 1 + (targetWeekday - w1) mod 7 + 7 * (occurrence - 1) in
    Full.findNthWeekdayOfMonth year month targetWeekday occurrence
    = (if (1 <=? occurrence) && (day <=? Full.getDaysInMonth year month)
       then Some day else None)
    /\ (occurrence <= 0 \/ 6 <= occurrence ->
        Full.getNthWeekdayOfMonth year month targetWeekday occurrence = 1).
Proof.
  intros Hm Ht Hw1 occurrence day.
  pose proof (ScanFacts.findNthWeekdayOfMonth_closed year month
                targetWeekday w1 occurrence Hm Ht Hw1) as Hfind.
  cbv zeta in Hfind. fold day in Hfind.
  split; [exact Hfind |].
  intros Hocc. unfold Full.getNthWeekdayOfMonth. rewrite Hfind.
  pose proof (Z.mod_pos_bound (targetWeekday - w1) 7 ltac:(lia)) as Hg.
  pose proof (FullFacts.getDaysInMonth_cases year month) as Hd.
  cbn zeta in Hd.
  destruct (Z.leb_spec 1 occurrence); cbn [andb]; [| reflexivity].
  destruct (Z.leb_spec day (Full.getDaysInMonth year month));
    [| reflexivity].
  unfold day in *. lia.
Qed.

Lemma getNthWeekdayOfMonth_closed_form_witness :
  (1 <= 2 <= 12 /\ 0 <= 4 <= 6 /\ Full.weekdayOfDate 2024 2 1 = Some 4)
  /\ Full.findNthWeekdayOfMonth 2024 2 4 5 = Some 29
  /\ Full.findNthWeekdayOfMonth 2023 2 1 5 = None.
Proof.
  split; [repeat split; try lia; reflexivity |].
  split.
  - exact (proj1 (getNthWeekdayOfMonth_closed_form 2024 2 4 4
                    ltac:(lia) ltac:(lia) eq_refl 5)).
  - exact (proj1 (getNthWeekdayOfMonth_closed_form 2023 2 1 3
                    ltac:(lia) ltac:(lia) eq_refl 5)).
Defined.

(** X7.  [getLastWeekdayOfMonth] really returns the last such weekday: in
    a month 1..12 the returned day has the target weekday, lies in the
    final seven days of the month, no later day of the month has that
    weekday, and it is the fifth occurrence when the month has one and
    the fourth occurrence otherwise. *)
Theorem getLastWeekdayOfMonth_is_last (year month targetWeekday : Z) :
  1 <= month <= 12 -> 0 <= targetWeekday <= 6 ->
  let last := Full.getLastWeekdayOfMonth year month targetWeekday in
  let daysInMonth := Full.getDaysInMonth year month in
  Full.weekdayOfDate year month last = Some targetWeekday
  /\ daysInMonth - 7 < last <= daysInMonth
  /\ (forall day, last < day <= daysInMonth ->
        Full.weekdayOfDate year month day <> Some targetWeekday)
  /\ last = match Full.findNthWeekdayOfMonth year month targetWeekday 5
            with
            | Some fifth => fifth
            | None => Full.getNthWeekdayOfMonth year month targetWeekday 4
            end.
Proof.
  intros Hm Ht last dim.
  destruct (FullFacts.weekdayOfDate_from_first year month Hm)
    as (w1 & Hw1 & Hall).
  pose proof (FullFacts.getDaysInMonth_cases year month) as Hd.
  cbn zeta in Hd. fold dim in Hd.
  assert (Hfirst : Full.weekdayOfDate year month 1 = Some w1).
  { rewrite Hall. f_equal. replace (w1 + 1 - 1) with w1 by ring.
    apply Z.mod_small. lia. }
  assert (Hlast : last = dim - (w1 + dim - 1 - targetWeekday) mod 7).
  { unfold last, Full.getLastWeekdayOfMonth, Full.findLastWeekdayOfMonth.
    rewrite (FullFacts.scanLast_from _ _ _ w1 Hall).
    fold dim. now rewrite FullFacts.scanLastFrom_closed by assumption. }
  pose proof (Z.mod_pos_bound (w1 + dim - 1 - targetWeekday) 7 ltac:(lia))
    as Hr.
  pose proof (Z.mod_pos_bound (targetWeekday - w1) 7 ltac:(lia)) as Hg.
  split; [| split; [lia | split]].
  - rewrite Hall, Hlast. f_equal. clear - Ht Hw1 Hr.
    Z.div_mod_to_equations. lia.
  - intros day Hday. rewrite Hall. intros Heq. injection Heq as Heq.
    clear - Ht Hw1 Hr Hlast Hday Heq. Z.div_mod_to_equations. lia.
  - pose proof (ScanFacts.findNthWeekdayOfMonth_closed year month
                  targetWeekday w1 5 Hm Ht Hfirst) as Hfive.
    pose proof (ScanFacts.findNthWeekdayOfMonth_closed year month
                  targetWeekday w1 4 Hm Ht Hfirst) as Hfour.
    cbv zeta in Hfive, Hfour.
    unfold Full.getNthWeekdayOfMonth. rewrite Hfive, Hfour. fold dim.
    cbn [Z.leb andb Z.compare Pos.compare Pos.compare_cont].
    destruct (Z.leb_spec (1 + (targetWeekday - w1) mod 7 + 7 * (5 - 1)) dim);
      destruct (Z.leb_spec (1 + (targetWeekday - w1) mod 7 + 7 * (4 - 1))
                  dim); try lia;
      rewrite Hlast; clear - Ht Hw1 Hr Hg Hd H H0;
      Z.div_mod_to_equations; lia.
Qed.

(** * Further properties of the holiday calendar *)

Module RuleFacts.

Ltac split_eqb :=
  repeat match goal with
         | |- context [Z.eqb ?a ?b] =>
             destruct (Z.eqb_spec a b); try lia;
             cbn [andb orb negb Full.orElse]
         end.

Ltac by_scan :=
  match goal with
  | H : ?d = Full.getNthWeekdayOfMonth _ _ _ _ |- _ =>
      rewrite H;
      first [ apply rule_mlk | apply rule_presidents | apply rule_labor
            | apply rule_thanksgiving ]
  | H : ?d = Full.getLastWeekdayOfMonth _ _ _ |- _ =>
      rewrite H; apply rule_memorial
  end.

Ltac by_fixed m d name :=
  subst;
  first [ apply (rule_fixed _ m d name); [cbn; tauto | lia | lia]
        | apply (rule_observed _ m d name); [cbn; tauto | lia] ].

Lemma checkNYSEHoliday_sound year month day weekday name :
  Full.checkNYSEHoliday year month day weekday = Some name ->
  HolidayRule year month day weekday name.
Proof.
  assert (Hmonth : month = 1 \/ month = 2 \/ month = 5 \/ month = 6
                   \/ month = 7 \/ month = 9 \/ month = 11 \/ month = 12
                   \/ (month <> 1 /\ month <> 2 /\ month <> 5 /\ month <> 6
                       /\ month <> 7 /\ month <> 9 /\ month <> 11
                       /\ month <> 12)) by lia.
  unfold Full.checkNYSEHoliday.
  destruct Hmonth
    as [-> | [-> | [-> | [-> | [-> | [-> | [-> | [-> | Hno]]]]]]]];
    cbv iota zeta; split_eqb; cbn; intros H; try discriminate;
    injection H as <-;
    first [ by_scan
          | by_fixed 1 1 "New Year's Day"
          | by_fixed 6 19 "Juneteenth"
          | by_fixed 7 4 "Independence Day"
          | by_fixed 12 25 "Christmas Day" ].
Qed.

Lemma checkNYSEHoliday_complete year month day weekday name :
  HolidayRule year month day weekday name ->
  Full.checkNYSEHoliday year month day weekday = Some name.
Proof.
  intros H.
  pose proof (FullFacts.getNthWeekdayOfMonth_found year 1 1 3
                ltac:(lia) ltac:(lia) ltac:(lia)) as [Hmlk _].
  unfold Full.checkNYSEHoliday.
  destruct H as [month date name weekday Hin H0 H6
                | month date name day Hin Hday | w | w | w | w | w].
  - cbn in Hin. destruct Hin as [E | [E | [E | [E | []]]]];
      injection E as <- <- <-; cbv iota zeta;
      replace (weekday =? 0) with false by (symmetry; apply Z.eqb_neq; lia);
      replace (weekday =? 6) with false by (symmetry; apply Z.eqb_neq; lia);
      reflexivity.
  - cbn in Hin. destruct Hin as [E | [E | [E | [E | []]]]];
      injection E as <- <- <-; destruct Hday as [-> | ->]; reflexivity.
  - cbv iota zeta. change (1 =? 1) with true. cbv iota.
    split_eqb; reflexivity.
  - cbv iota zeta. cbn. now rewrite Z.eqb_refl.
  - cbv iota zeta. cbn. now rewrite Z.eqb_refl.
  - cbv iota zeta. cbn. now rewrite Z.eqb_refl.
  - cbv iota zeta. cbn. now rewrite Z.eqb_refl.
Qed.

(** Every name the calendar returns is a non-empty string, so the
    truthiness test of the evaluator loses none. *)
Lemma checkNYSEHoliday_truthy year month day weekday :
  truthy (Full.checkNYSEHoliday year month day weekday)
  = match Full.checkNYSEHoliday year month day weekday with
    | Some _ => true
    | None => false
    end.
Proof.
  destruct (Full.checkNYSEHoliday year month day weekday) as [name |] eqn:E;
    [| reflexivity].
  apply checkNYSEHoliday_sound in E.
  destruct E as [month date name weekday Hin H0 H6
                | month date name day Hin Hday | w | w | w | w | w];
    try reflexivity;
    cbn in Hin; destruct Hin as [E | [E | [E | [E | []]]]];
    injection E as <- <- <-; reflexivity.
Qed.

End RuleFacts.

(** X8.  [checkNYSEHoliday] is exactly its rule table: it returns a name
    if and only if the date is a fixed holiday on a weekday other than
    Saturday and Sunday, or a Monday one or two days after a fixed
    holiday (the "(Observed)" name), or the scanned day of one of the
    five floating holidays; the order of the blocks never matters. *)
Theorem checkNYSEHoliday_rule_table (year month day weekday : Z)
  (name : string) :
  Full.checkNYSEHoliday year month day weekday = Some name
  <-> HolidayRule year month day weekday name.
Proof.
  split.
  - apply RuleFacts.checkNYSEHoliday_sound.
  - apply RuleFacts.checkNYSEHoliday_complete.
Qed.

(** X9.  When the weekday passed in is the weekday of the date, a date
    that gets a holiday name is never a Saturday or a Sunday: the
    weekend check that runs first cannot hide a named holiday. *)
Theorem named_holidays_are_weekdays (year month day weekday : Z)
  (name : string) :
  Full.weekdayOfDate year month day = Some weekday ->
  Full.checkNYSEHoliday year month day weekday = Some name ->
  1 <= weekday <= 5.
Proof.
  intros Hwd Hname. apply RuleFacts.checkNYSEHoliday_sound in Hname.
  assert (Hrange : 1 <= month <= 12 -> 0 <= weekday <= 6).
  { intros Hm.
    destruct (FullFacts.weekdayOfDate_from_first year month Hm)
      as (w1 & _ & Hall).
    rewrite Hall in Hwd. injection Hwd as <-.
    pose proof (Z.mod_pos_bound (w1 + day - 1) 7 ltac:(lia)). lia. }
  destruct Hname as [month date name weekday Hin H0 H6
                    | month date name day Hin Hday | w | w | w | w | w].
  - pose proof (HolidayFacts.fixedHolidays_month _ _ _ Hin) as Hm.
    specialize (Hrange Hm). lia.
  - lia.
  - pose proof (FullFacts.getNthWeekdayOfMonth_found year 1 1 3
                  ltac:(lia) ltac:(lia) ltac:(lia)) as [_ H].
    rewrite H in Hwd. injection Hwd as <-. lia.
  - pose proof (FullFacts.getNthWeekdayOfMonth_found year 2 1 3
                  ltac:(lia) ltac:(lia) ltac:(lia)) as [_ H].
    rewrite H in Hwd. injection Hwd as <-. lia.
  - destruct (FullFacts.findLastWeekdayOfMonth_found year 5 1
                ltac:(lia) ltac:(lia)) as (d & Hfind & _ & H).
    unfold Full.getLastWeekdayOfMonth in Hwd. rewrite Hfind in Hwd.
    rewrite H in Hwd. injection Hwd as <-. lia.
  - pose proof (FullFacts.getNthWeekdayOfMonth_found year 9 1 1
                  ltac:(lia) ltac:(lia) ltac:(lia)) as [_ H].
    rewrite H in Hwd. injection Hwd as <-. lia.
  - pose proof (FullFacts.getNthWeekdayOfMonth_found year 11 4 4
                  ltac:(lia) ltac:(lia) ltac:(lia)) as [_ H].
    rewrite H in Hwd. injection Hwd as <-. lia.
Qed.

Lemma named_holidays_are_weekdays_witness :
  (Full.weekdayOfDate 2024 11 28 = Some 4
   /\ Full.checkNYSEHoliday 2024 11 28 4 = Some "Thanksgiving Day")
  /\ 1 <= 4 <= 5.
Proof.
  split; [split; reflexivity |].
  apply (named_holidays_are_weekdays 2024 11 28 4 "Thanksgiving Day");
    reflexivity.
Defined.

(** X10.  The five floating holidays of every year: Martin Luther King
    Jr. Day and Presidents Day are Mondays among days 15..21 of January
    and February, Memorial Day is a Monday among days 25..31 of May,
    Labor Day a Monday among days 1..7 of September, Thanksgiving a
    Thursday among days 22..28 of November, and [checkNYSEHoliday] names
    each of them on that day. *)
Theorem floating_holidays_every_year (year : Z) :
  let mlk := Full.getNthWeekdayOfMonth year 1 1 3 in
  let presidents := Full.getNthWeekdayOfMonth year 2 1 3 in
  let memorial := Full.getLastWeekdayOfMonth year 5 1 in
  let labor := Full.getNthWeekdayOfMonth year 9 1 1 in
  let thanksgiving := Full.getNthWeekdayOfMonth year 11 4 4 in
  (15 <= mlk <= 21 /\ Full.weekdayOfDate year 1 mlk = Some 1
   /\ Full.checkNYSEHoliday year 1 mlk 1
      = Some "Martin Luther King Jr. Day")
  /\ (15 <= presidents <= 21
      /\ Full.weekdayOfDate year 2 presidents = Some 1
      /\ Full.checkNYSEHoliday year 2 presidents 1 = Some "Presidents Day")
  /\ (25 <= memorial <= 31 /\ Full.weekdayOfDate year 5 memorial = Some 1
      /\ Full.checkNYSEHoliday year 5 memorial 1 = Some "Memorial Day")
  /\ (1 <= labor <= 7 /\ Full.weekdayOfDate year 9 labor = Some 1
      /\ Full.checkNYSEHoliday year 9 labor 1 = Some "Labor Day")
  /\ (22 <= thanksgiving <= 28
      /\ Full.weekdayOfDate year 11 thanksgiving = Some 4
      /\ Full.checkNYSEHoliday year 11 thanksgiving 4
         = Some "Thanksgiving Day").
Proof.
  intros mlk presidents memorial labor thanksgiving.
  pose proof (FullFacts.getNthWeekdayOfMonth_found year 1 1 3
                ltac:(lia) ltac:(lia) ltac:(lia)) as [R1 W1].
  pose proof (FullFacts.getNthWeekdayOfMonth_found year 2 1 3
                ltac:(lia) ltac:(lia) ltac:(lia)) as [R2 W2].
  pose proof (FullFacts.getNthWeekdayOfMonth_found year 9 1 1
                ltac:(lia) ltac:(lia) ltac:(lia)) as [R9 W9].
  pose proof (FullFacts.getNthWeekdayOfMonth_found year 11 4 4
                ltac:(lia) ltac:(lia) ltac:(lia)) as [R11 W11].
  destruct (FullFacts.findLastWeekdayOfMonth_found year 5 1
              ltac:(lia) ltac:(lia)) as (d & Hfind & R5 & W5).
  assert (Hmem : memorial = d)
    by (unfold memorial, Full.getLastWeekdayOfMonth; now rewrite Hfind).
  change (Full.getDaysInMonth year 5) with 31 in R5.
  fold mlk in R1, W1. fold presidents in R2, W2. fold labor in R9, W9.
  fold thanksgiving in R11, W11. rewrite <- Hmem in R5, W5.
  repeat split; try assumption; try lia;
    apply RuleFacts.checkNYSEHoliday_complete;
    first [ apply rule_mlk | apply rule_presidents | apply rule_memorial
          | apply rule_labor | apply rule_thanksgiving ].
Qed.

(** * Further properties of the evaluator *)

Module EvaluatorFacts.

Lemma weekend_test (w : Z) :
  (w =? 0) || (w =? 6) = true <-> w = 0 \/ w = 6.
Proof.
  destruct (Z.eqb_spec w 0), (Z.eqb_spec w 6); cbn; split; intros;
    try tauto; try lia; discriminate.
Qed.

(** What the trading-hours check answers, for any instant. *)
Lemma hoursCheck_open (e : EasternTime.t) (str : string) :
  let minutes := EasternTime.hour e * 60 + EasternTime.minute e in
  (MarketState.isOpen (hoursCheck e str) = true <-> 570 <= minutes < 960)
  /\ (MarketState.status (hoursCheck e str) = "OPEN"
      <-> 570 <= minutes < 960)
  /\ (MarketState.status (hoursCheck e str) = "OPEN"
      \/ MarketState.status (hoursCheck e str) = "AFTER_HOURS").
Proof.
  intros minutes. unfold hoursCheck. fold minutes.
  change marketOpenMinutes with 570. change marketCloseMinutes with 960.
  destruct (Z.geb_spec minutes 570), (Z.ltb_spec minutes 960);
    cbn [andb MarketState.isOpen MarketState.status];
    repeat split; intros; try lia; try discriminate; try reflexivity;
    auto.
Qed.

(** Digits of a second of the day. *)
Lemma clock_ranges (s : Z) :
  0 <= s < 86400 ->
  0 <= s / 3600 <= 23
  /\ 0 <= Z.rem s 3600 / 60 <= 59
  /\ 0 <= Z.rem s 60 <= 59.
Proof.
  intros Hs. rewrite !Z.rem_mod_nonneg by lia.
  Z.div_mod_to_equations. lia.
Qed.

(** Hour, minute and second of the full conversion are clock digits. *)
Lemma convertUTCToEastern_clock (utcDate : Date) :
  let e := Full.convertUTCToEastern utcDate in
  0 <= EasternTime.hour e <= 23
  /\ 0 <= EasternTime.minute e <= 59
  /\ 0 <= EasternTime.second e <= 59.
Proof.
  intros e. subst e. unfold Full.convertUTCToEastern. cbv zeta.
  cbn [EasternTime.hour EasternTime.minute EasternTime.second].
  apply clock_ranges. rewrite secondsOfDay_mod.
  apply Z.mod_pos_bound. lia.
Qed.

End EvaluatorFacts.

(** X11.  The full decision procedure, for every Eastern instant.  A
    weekday of 0 or 6 gives WEEKEND whatever the date and time (also on a
    holiday date); otherwise a named holiday gives HOLIDAY with the name
    as reason; the state is open exactly when the weekday is neither 0
    nor 6, the date has no holiday name and the minutes of the day lie in
    [570, 960); [isOpen] is true exactly for status OPEN; and the status
    is always one of the four strings. *)
Theorem marketStateOf_decision (e : EasternTime.t) :
  let s := Full.marketStateOf e in
  let holiday :=
    Full.checkNYSEHoliday (EasternTime.year e) (EasternTime.month e)
      (EasternTime.day e) (EasternTime.weekday e) in
  let minutes := EasternTime.hour e * 60 + EasternTime.minute e in
  (EasternTime.weekday e = 0 \/ EasternTime.weekday e = 6 ->
   MarketState.status s = "WEEKEND" /\ MarketState.isOpen s = false)
  /\ (forall name,
        EasternTime.weekday e <> 0 -> EasternTime.weekday e <> 6 ->
        holiday = Some name ->
        MarketState.status s = "HOLIDAY" /\ MarketState.reason s = name
        /\ MarketState.isOpen s = false)
  /\ (MarketState.isOpen s = true
      <-> EasternTime.weekday e <> 0 /\ EasternTime.weekday e <> 6
          /\ holiday = None /\ 570 <= minutes < 960)
  /\ (MarketState.isOpen s = true <-> MarketState.status s = "OPEN")
  /\ In (MarketState.status s) ["WEEKEND"; "HOLIDAY"; "OPEN"; "AFTER_HOURS"].
Proof.
  intros s holiday minutes. subst s. unfold Full.marketStateOf. cbv zeta.
  rewrite RuleFacts.checkNYSEHoliday_truthy. fold holiday.
  pose proof (EvaluatorFacts.weekend_test (EasternTime.weekday e)) as Hw.
  pose proof (EvaluatorFacts.hoursCheck_open e (formatEastern e))
    as (Hopen & Hstatus & Hcases).
  cbv zeta in Hopen, Hstatus. fold minutes in Hopen, Hstatus.
  destruct ((EasternTime.weekday e =? 0) || (EasternTime.weekday e =? 6)).
  - assert (Hwe : EasternTime.weekday e = 0 \/ EasternTime.weekday e = 6)
      by (apply Hw; reflexivity).
    cbn [MarketState.status MarketState.isOpen MarketState.reason].
    split; [auto |]. split; [intros; lia |].
    split; [split; [discriminate | intros (H0 & H6 & _); lia] |].
    split; [split; discriminate |]. cbn. auto.
  - assert (Hwd : ~ (EasternTime.weekday e = 0
                     \/ EasternTime.weekday e = 6))
      by (intros H; apply Hw in H; discriminate).
    destruct holiday as [name |].
    + cbn [MarketState.status MarketState.isOpen MarketState.reason].
      split; [intros; tauto |].
      split; [intros n _ _ E; injection E as <-; auto |].
      split; [split; [discriminate | intros (_ & _ & H & _); discriminate] |].
      split; [split; discriminate |]. cbn. auto.
    + split; [intros; tauto |]. split; [intros; discriminate |].
      split; [rewrite Hopen; tauto |].
      split; [rewrite Hopen, Hstatus; tauto |].
      cbn. destruct Hcases as [-> | ->]; auto.
Qed.

Lemma marketStateOf_decision_witness :
  let e := EasternTime.mk 2024 1 1 10 0 0 6 false in
  (EasternTime.weekday e = 0 \/ EasternTime.weekday e = 6)
  /\ MarketState.status (Full.marketStateOf e) = "WEEKEND"
  /\ MarketState.isOpen (Full.marketStateOf e) = false.
Proof.
  intros e. split; [right; reflexivity |].
  apply (proj1 (marketStateOf_decision e)). right. reflexivity.
Defined.

(** X12.  The simplified decision procedure, for every Eastern instant:
    open exactly when the weekday is neither 0 nor 6, the date is none of
    January 1, July 4 and December 25, and the minutes of the day lie in
    [570, 960); [isOpen] is true exactly for status OPEN. *)
Theorem simple_marketStateOf_decision (e : EasternTime.t) :
  let s := Simple.marketStateOf e in
  let minutes := EasternTime.hour e * 60 + EasternTime.minute e in
  (MarketState.isOpen s = true
   <-> EasternTime.weekday e <> 0 /\ EasternTime.weekday e <> 6
       /\ ~ (EasternTime.month e = 1 /\ EasternTime.day e = 1)
       /\ ~ (EasternTime.month e = 7 /\ EasternTime.day e = 4)
       /\ ~ (EasternTime.month e = 12 /\ EasternTime.day e = 25)
       /\ 570 <= minutes < 960)
  /\ (MarketState.isOpen s = true <-> MarketState.status s = "OPEN").
Proof.
  intros s minutes. subst s. unfold Simple.marketStateOf. cbv zeta.
  pose proof (EvaluatorFacts.weekend_test (EasternTime.weekday e)) as Hw.
  match goal with
  | |- context [hoursCheck e ?str] =>
      pose proof (EvaluatorFacts.hoursCheck_open e str)
        as (Hopen & Hstatus & _)
  end.
  cbv zeta in Hopen, Hstatus. fold minutes in Hopen, Hstatus.
  destruct ((EasternTime.weekday e =? 0) || (EasternTime.weekday e =? 6)).
  - assert (Hwe : EasternTime.weekday e = 0 \/ EasternTime.weekday e = 6)
      by (apply Hw; reflexivity).
    cbn [MarketState.status MarketState.isOpen].
    repeat split; intros; try discriminate; lia.
  - assert (Hwd : ~ (EasternTime.weekday e = 0
                     \/ EasternTime.weekday e = 6))
      by (intros H; apply Hw in H; discriminate).
    unfold Simple.isNYSEHolidaySimple.
    destruct (Z.eqb_spec (EasternTime.month e) 1);
      [| destruct (Z.eqb_spec (EasternTime.month e) 7);
         [| destruct (Z.eqb_spec (EasternTime.month e) 12)]];
      try match goal with
          | |- context [EasternTime.day e =? ?d] =>
              destruct (Z.eqb_spec (EasternTime.day e) d)
          end;
      cbn [MarketState.status MarketState.isOpen];
      repeat split; intros; try discriminate; try lia; try tauto;
      try (apply Hopen; tauto);
      try (apply Hstatus, Hopen; assumption);
      try (apply Hopen, Hstatus; assumption).
Qed.

(** X13.  Fields of the full conversion.  For every time value the hour
    is in 0..23, minute and second in 0..59 and the weekday in 0..6; for
    a time value from the epoch on, year, month and day form a real
    calendar date (from 1970 on, month 1..12, day within the month). *)
Theorem convertUTCToEastern_fields (utcDate : Date) :
  let e := Full.convertUTCToEastern utcDate in
  0 <= EasternTime.hour e <= 23
  /\ 0 <= EasternTime.minute e <= 59
  /\ 0 <= EasternTime.second e <= 59
  /\ 0 <= EasternTime.weekday e <= 6
  /\ (0 <= utcDate ->
      1970 <= EasternTime.year e
      /\ 1 <= EasternTime.month e <= 12
      /\ 1 <= EasternTime.day e
         <= Full.getDaysInMonth (EasternTime.year e) (EasternTime.month e)).
Proof.
  intros e. subst e. unfold Full.convertUTCToEastern. cbv zeta.
  cbn [EasternTime.hour EasternTime.minute EasternTime.second
       EasternTime.weekday EasternTime.year EasternTime.month
       EasternTime.day].
  pose proof (EvaluatorFacts.convertUTCToEastern_clock utcDate)
    as (Hh & Hmi & Hse).
  unfold Full.convertUTCToEastern in Hh, Hmi, Hse. cbv zeta in Hh, Hmi, Hse.
  cbn [EasternTime.hour EasternTime.minute EasternTime.second]
    in Hh, Hmi, Hse.
  split; [exact Hh |]. split; [exact Hmi |]. split; [exact Hse |].
  unfold getTime.
  split.
  - unfold Full.daysSinceEpochToDate.
    destruct (Full.stripYears _ _) as [y r].
    destruct (stripMonths _ _ _) as [r' m].
    cbn [DateInfo.weekday]. apply weekdayOfDays_range.
  - intros Hnn.
    assert (Hdays : 0 <= utcDate / 1000 / 86400).
    { apply Z.div_pos; [| lia]. apply Z.div_pos; lia. }
    destruct (CalendarFacts.daysSinceEpochToDate_decompose _ Hdays)
      as (year & k & r & Hy & Hk & Hr & _ & ->).
    cbn [DateInfo.year DateInfo.month DateInfo.day].
    rewrite <- CalendarFacts.table_is_getDaysInMonth by assumption. lia.
Qed.

Lemma convertUTCToEastern_fields_witness :
  0 <= 1718028000000
  /\ 1970 <= EasternTime.year (Full.convertUTCToEastern 1718028000000)
  /\ 1 <= EasternTime.month (Full.convertUTCToEastern 1718028000000) <= 12
  /\ 1 <= EasternTime.day (Full.convertUTCToEastern 1718028000000)
     <= Full.getDaysInMonth
          (EasternTime.year (Full.convertUTCToEastern 1718028000000))
          (EasternTime.month (Full.convertUTCToEastern 1718028000000)).
Proof.
  split; [lia |].
  apply (convertUTCToEastern_fields 1718028000000). lia.
Defined.

(** X14.  Where the date fields of the full conversion belong.  With the
    Eastern offset of 4 hours (DST) or 5 hours, the UTC day whose date
    the conversion reports is the Eastern day exactly while the Eastern
    hour is below 20 (DST) or 19, and the day after it from then until
    midnight.  In particular, whenever the evaluator answers open, the
    reported year, month, day and weekday are those of the Eastern
    day. *)
Theorem convertUTCToEastern_date_window (utcDate : Date) :
  let e := Full.convertUTCToEastern utcDate in
  let offsetHours := if EasternTime.isDST e then 4 else 5 in
  let easternDay := (getTime utcDate / 1000 - offsetHours * 3600) / 86400 in
  let reported :=
    DateInfo.mk (EasternTime.year e) (EasternTime.month e)
      (EasternTime.day e) (EasternTime.weekday e) in
  (EasternTime.hour e < 24 - offsetHours ->
   reported = Full.daysSinceEpochToDate easternDay)
  /\ (24 - offsetHours <= EasternTime.hour e ->
      reported = Full.daysSinceEpochToDate (easternDay + 1))
  /\ (MarketState.isOpen (Full.marketStateOf e) = true ->
      reported = Full.daysSinceEpochToDate easternDay).
Proof.
  intros e offsetHours easternDay reported.
  assert (Hrep : reported
                 = Full.daysSinceEpochToDate (getTime utcDate / 1000 / 86400)).
  { unfold reported, e, Full.convertUTCToEastern. cbn.
    destruct (Full.daysSinceEpochToDate _). reflexivity. }
  set (ts := getTime utcDate / 1000) in *.
  assert (Hhour : EasternTime.hour e
                  = (ts - offsetHours * 3600) mod 86400 / 3600).
  { unfold offsetHours, e, Full.convertUTCToEastern. cbv zeta.
    cbn [EasternTime.hour EasternTime.isDST]. rewrite secondsOfDay_mod.
    fold ts. destruct (Full.isDSTInEffect _ _ _ _); do 2 f_equal; lia. }
  assert (Hoff : offsetHours = 4 \/ offsetHours = 5)
    by (unfold offsetHours; destruct (EasternTime.isDST e); auto).
  assert (Hearly : EasternTime.hour e < 24 - offsetHours ->
                   ts / 86400 = easternDay).
  { rewrite Hhour. unfold easternDay. fold ts. clear - Hoff. intros H.
    destruct Hoff as [-> | ->]; Z.div_mod_to_equations; lia. }
  assert (Hlate : 24 - offsetHours <= EasternTime.hour e ->
                  ts / 86400 = easternDay + 1).
  { rewrite Hhour. unfold easternDay. fold ts. clear - Hoff. intros H.
    destruct Hoff as [-> | ->]; Z.div_mod_to_equations; lia. }
  split; [intros H; rewrite Hrep, (Hearly H); reflexivity |].
  split; [intros H; rewrite Hrep, (Hlate H); reflexivity |].
  intros Hopen. rewrite Hrep, Hearly; [reflexivity |].
  pose proof (EvaluatorFacts.convertUTCToEastern_clock utcDate) as Hmin.
  cbv zeta in Hmin.
  revert Hopen. unfold Full.marketStateOf. cbv zeta.
  destruct ((EasternTime.weekday e =? 0) || (EasternTime.weekday e =? 6));
    [discriminate |].
  destruct (truthy _); [discriminate |].
  intros Hopen.
  apply (proj1 (EvaluatorFacts.hoursCheck_open e _)) in Hopen.
  fold e in Hmin. lia.
Qed.

Lemma convertUTCToEastern_date_window_witness :
  let e := Full.convertUTCToEastern 1717808400000 in
  24 - 4 <= EasternTime.hour e
  /\ DateInfo.mk (EasternTime.year e) (EasternTime.month e)
       (EasternTime.day e) (EasternTime.weekday e)
     = Full.daysSinceEpochToDate ((1717808400 - 4 * 3600) / 86400 + 1).
Proof.
  intros e. split; [vm_compute; discriminate |].
  apply (proj1 (proj2 (convertUTCToEastern_date_window 1717808400000))).
  vm_compute. discriminate.
Defined.

(** * Further properties of the simplified engine *)

Module SimpleFacts.
Import Simple.

Lemma months365_entry (k : nat) :
  (k < 12)%nat ->
  28 <= nth k months365 0 <= 31 /\ (k = 1%nat -> nth k months365 0 = 28).
Proof.
  intros Hk. unfold months365.
  do 12 (destruct k as [| k]; [cbn; lia |]); lia.
Qed.

(** The simplified date of a day count from the epoch on. *)
Lemma daysToDateSimple_decompose (d : Z) :
  0 <= d ->
  exists (k : nat) (r : Z),
    (k < 12)%nat /\ 0 <= r < nth k months365 0
    /\ d = 365 * (d / 365) + sumList (firstn k months365) + r
    /\ daysToDateSimple d = (1970 + d / 365, 1 + Z.of_nat k, r + 1).
Proof.
  intros Hd. unfold daysToDateSimple. cbv zeta. fold months365.
  rewrite Z.rem_mod_nonneg by lia.
  pose proof (Z.mod_pos_bound d 365 ltac:(lia)) as Hr.
  pose proof (FullFacts.stripMonths_spec months365 (d mod 365) 1) as Hm.
  change (sumList months365) with 365 in Hm. specialize (Hm Hr).
  cbv zeta in Hm.
  destruct (stripMonths months365 (d mod 365) 1) as [daysLeft month].
  cbn [fst snd] in Hm. destruct Hm as (k & Hk & -> & Hsum & Hleft).
  change (List.length months365) with 12%nat in Hk.
  exists k, daysLeft. repeat split; try assumption; try lia.
  - pose proof (Z.div_mod d 365 ltac:(lia)). lia.
  - f_equal. lia.
Qed.

(** Before the epoch the simplified date sticks to January 1. *)
Lemma daysToDateSimple_negative (d : Z) :
  d < 0 -> daysToDateSimple d = (1970 + d / 365, 1, 1).
Proof.
  intros Hd. unfold daysToDateSimple. cbv zeta.
  assert (Hr : Z.rem d 365 <= 0).
  { pose proof (Z.rem_nonpos d 365 ltac:(lia) ltac:(lia)). lia. }
  cbn [stripMonths].
  replace (Z.rem d 365 <? 31) with true by (symmetry; apply Z.ltb_lt; lia).
  f_equal. lia.
Qed.

Lemma secondsInDay_wrap (t : Z) :
  (if Z.rem t 86400 <? 0 then Z.rem t 86400 + 86400 else Z.rem t 86400)
  = t mod 86400.
Proof.
  pose proof (Z.mod_pos_bound t 86400 ltac:(lia)).
  pose proof (Z.rem_bound_abs t 86400 ltac:(lia)).
  pose proof (Z.quot_rem' t 86400).
  destruct (Z.ltb_spec (Z.rem t 86400) 0).
  - apply (Z.mod_unique _ _ (t ÷ 86400 - 1)); lia.
  - apply (Z.mod_unique _ _ (t ÷ 86400)); lia.
Qed.

End SimpleFacts.

(** X15.  Fields of the simplified conversion, for every time value
    (also before the epoch): hour in 0..23, minute and second in 0..59,
    weekday in 0..6, month in 1..12 and day in 1..31, with at most 28
    days in February: the simplified calendar has no February 29. *)
Theorem convertUTCToEasternSimple_fields (utcDate : Date) :
  let e := Simple.convertUTCToEasternSimple utcDate in
  0 <= EasternTime.hour e <= 23
  /\ 0 <= EasternTime.minute e <= 59
  /\ 0 <= EasternTime.second e <= 59
  /\ 0 <= EasternTime.weekday e <= 6
  /\ 1 <= EasternTime.month e <= 12
  /\ 1 <= EasternTime.day e <= 31
  /\ (EasternTime.month e = 2 -> EasternTime.day e <= 28).
Proof.
  intros e. subst e. unfold Simple.convertUTCToEasternSimple. cbv zeta.
  set (t := getTime utcDate / 1000 + _).
  rewrite SimpleFacts.secondsInDay_wrap.
  pose proof (EvaluatorFacts.clock_ranges (t mod 86400)
                (Z.mod_pos_bound t 86400 ltac:(lia))) as (Hh & Hmi & Hse).
  assert (Hdate : let '(year, month, day) :=
                    Simple.daysToDateSimple (t / 86400) in
                  1 <= month <= 12 /\ 1 <= day <= 31
                  /\ (month = 2 -> day <= 28)).
  { destruct (Z_lt_le_dec (t / 86400) 0) as [Hneg | Hnn].
    - rewrite SimpleFacts.daysToDateSimple_negative by assumption. lia.
    - destruct (SimpleFacts.daysToDateSimple_decompose _ Hnn)
        as (k & r & Hk & Hr & _ & ->).
      pose proof (SimpleFacts.months365_entry k Hk) as [Hn Hfeb].
      repeat split; lia. }
  destruct (Simple.daysToDateSimple (t / 86400)) as [[year month] day].
  cbn [EasternTime.hour EasternTime.minute EasternTime.second
       EasternTime.weekday EasternTime.month EasternTime.day].
  pose proof (weekdayOfDays_range (t / 86400)). tauto.
Qed.

(** X16.  The simplified calendar repeats every 365 days: from the epoch
    on, 365 days later is the same month and day of the next "year". *)
Theorem daysToDateSimple_period (d : Z) :
  0 <= d ->
  Simple.daysToDateSimple (d + 365)
  = let '(year, month, day) := Simple.daysToDateSimple d in
    (year + 1, month, day).
Proof.
  intros Hd. unfold Simple.daysToDateSimple. cbv zeta.
  replace ((d + 365) / 365) with (d / 365 + 1)
    by (replace (d + 365) with (d + 1 * 365) by ring;
        rewrite Z.div_add by lia; reflexivity).
  replace (Z.rem (d + 365) 365) with (Z.rem d 365)
    by (rewrite !Z.rem_mod_nonneg by lia;
        replace (d + 365) with (d + 1 * 365) by ring;
        rewrite Z.mod_add by lia; reflexivity).
  destruct (stripMonths _ _ _) as [daysLeft month]. f_equal. f_equal. ring.
Qed.

Lemma daysToDateSimple_period_witness :
  0 <= 19737
  /\ Simple.daysToDateSimple (19737 + 365) = (2025, 1, 28).
Proof.
  split; [lia |].
  exact (daysToDateSimple_period 19737 ltac:(lia)).
Defined.

(** X17.  The simplified holiday set is contained in the full one on
    working days: a date the simplified check calls a holiday gets a
    holiday name from [checkNYSEHoliday] whenever its weekday is
    Monday..Friday, in any year. *)
Theorem simple_holidays_are_full_holidays
  (year year' month day weekday : Z) :
  1 <= weekday <= 5 ->
  Simple.isNYSEHolidaySimple year month day = true ->
  exists name,
    Full.checkNYSEHoliday year' month day weekday = Some name
    /\ In (month, day, name) fixedHolidays.
Proof.
  intros Hwd. unfold Simple.isNYSEHolidaySimple.
  destruct (Z.eqb_spec month 1) as [-> | H1];
    [| destruct (Z.eqb_spec month 7) as [-> | H7];
       [| destruct (Z.eqb_spec month 12) as [-> | H12]]];
    intros Hday; try discriminate; apply Z.eqb_eq in Hday; subst day;
    eexists; (split;
              [ apply RuleFacts.checkNYSEHoliday_complete;
                apply rule_fixed; [| lia | lia]; cbn; tauto
              | cbn; tauto ]).
Qed.

Lemma simple_holidays_are_full_holidays_witness :
  (1 <= 4 <= 5 /\ Simple.isNYSEHolidaySimple 2024 7 4 = true)
  /\ exists name,
       Full.checkNYSEHoliday 2024 7 4 4 = Some name
       /\ In (7, 4, name) fixedHolidays.
Proof.
  split; [split; [lia | reflexivity] |].
  apply (simple_holidays_are_full_holidays 2024 2024 7 4 4);
    [lia | reflexivity].
Defined.

Lemma getLastWeekdayOfMonth_is_last_witness :
  (1 <= 5 <= 12 /\ 0 <= 1 <= 6)
  /\ Full.weekdayOfDate 2024 5 (Full.getLastWeekdayOfMonth 2024 5 1)
     = Some 1
  /\ Full.getDaysInMonth 2024 5 - 7 < Full.getLastWeekdayOfMonth 2024 5 1
     <= Full.getDaysInMonth 2024 5.
Proof.
  split; [lia |].
  pose proof (getLastWeekdayOfMonth_is_last 2024 5 1 ltac:(lia) ltac:(lia))
    as (H1 & H2 & _).
  split; [exact H1 | exact H2].
Defined.

Module DriftFacts.
Import Full.

(** A 365-day count never overtakes the real one, and falls behind it
    once the first leap year, 1972, has passed. *)
Lemma daysBeforeYear_lower (y : Z) :
  1970 <= y ->
  365 * (y - 1970) <= daysBeforeYear y
  /\ (1973 <= y -> 365 * (y - 1970) + 1 <= daysBeforeYear y).
Proof.
  intros Hy.
  assert (Hn : exists n : nat, y = 1970 + Z.of_nat n)
    by (exists (Z.to_nat (y - 1970)); lia).
  destruct Hn as [n ->]. clear Hy.
  induction n as [| n IH].
  - rewrite Z.add_0_r, FullFacts.daysBeforeYear_1970. lia.
  - replace (1970 + Z.of_nat (S n)) with (1970 + Z.of_nat n + 1) by lia.
    rewrite FullFacts.daysBeforeYear_succ by lia.
    pose proof (FullFacts.yearDays_cases (1970 + Z.of_nat n)) as Hyd.
    destruct IH as [IH1 IH2]. split; [lia |]. intros H73.
    destruct (Z.eq_dec (1970 + Z.of_nat n) 1972) as [E | NE].
    + rewrite E in *. change (yearDays 1972) with 366.
      change (daysBeforeYear 1972) with 730. lia.
    + specialize (IH2 ltac:(lia)). lia.
Qed.

(** Days before a month, in the table of the year against the 365-day
    table: one more from March on in a leap year. *)
Lemma month_offsets (year : Z) (k : nat) :
  (k < 12)%nat ->
  sumList (firstn k (daysInMonthsOf year))
  = sumList (firstn k months365)
    + (if isLeapYear year && (2 <=? Z.of_nat k) then 1 else 0)
  /\ sumList (firstn k months365) + nth k months365 0 <= 365
  /\ 0 <= sumList (firstn k months365)
  /\ (isLeapYear year = false ->
      nth k (daysInMonthsOf year) 0 = nth k months365 0).
Proof.
  intros Hk. unfold daysInMonthsOf, months365.
  destruct (isLeapYear year);
    do 12 (destruct k as [| k];
           [cbn; repeat split; try lia; try discriminate |]);
    lia.
Qed.

(** The simplified date of a day count given by its 365-day year, its
    month and its offset in the month. *)
Lemma daysToDateSimple_of_parts (q : Z) (k : nat) (r : Z) :
  0 <= q -> (k < 12)%nat -> 0 <= r < nth k months365 0 ->
  Simple.daysToDateSimple (365 * q + sumList (firstn k months365) + r)
  = (1970 + q, 1 + Z.of_nat k, r + 1).
Proof.
  intros Hq Hk Hr.
  pose proof (month_offsets 1970 k Hk) as (_ & Hle & Hnn & _).
  set (off := sumList (firstn k months365) + r) in *.
  assert (Hoff : 0 <= off < 365) by (unfold off; lia).
  unfold Simple.daysToDateSimple. cbv zeta. fold months365.
  replace (365 * q + sumList (firstn k months365) + r)
    with (off + q * 365) by (unfold off; ring).
  rewrite Z.div_add, Z.rem_mod_nonneg, Z.mod_add by lia.
  rewrite Z.div_small, Z.mod_small by lia.
  unfold off.
  rewrite CalendarFacts.stripMonths_unique
    by (try (unfold months365; repeat constructor; lia);
        try (change (List.length months365) with 12%nat); lia).
  rewrite Z.max_l by lia. replace (0 + q) with q by ring. reflexivity.
Qed.

End DriftFacts.

(** X18.  How long the simplified date stays right.  From the epoch on,
    the simplified date calculation returns the year, month and day of
    the full calendar exactly for the day counts below 789, that is up to
    1972-02-28; from 1972-02-29 on, the first leap day after the epoch,
    the two never agree again. *)
Theorem simplified_date_exact_until_first_leap_day (d : Z) :
  0 <= d ->
  (Simple.daysToDateSimple d
   = (DateInfo.year (Full.daysSinceEpochToDate d),
      DateInfo.month (Full.daysSinceEpochToDate d),
      DateInfo.day (Full.daysSinceEpochToDate d))
   <-> d < 789).
Proof.
  intros Hd.
  destruct (CalendarFacts.daysSinceEpochToDate_decompose d Hd)
    as (year & k & r & Hy & Hk & Hr & Hsum & ->).
  cbn [DateInfo.year DateInfo.month DateInfo.day].
  pose proof (DriftFacts.daysBeforeYear_lower year Hy) as [Hlow Hlow73].
  pose proof (DriftFacts.month_offsets year k Hk)
    as (Hoff & Hle & Hnn & Hsame).
  pose proof (SimpleFacts.months365_entry k Hk) as [Hentry Hfeb].
  split.
  - intros Heq.
    destruct (SimpleFacts.daysToDateSimple_decompose d Hd)
      as (k' & r' & Hk' & Hr' & Hsum' & Hsimple).
    rewrite Hsimple in Heq.
    pose proof (f_equal (fun t => fst (fst t)) Heq) as Hyear.
    pose proof (f_equal (fun t => snd (fst t)) Heq) as Hmonth.
    pose proof (f_equal snd Heq) as Hday.
    cbn [fst snd] in Hyear, Hmonth, Hday.
    assert (k' = k) by lia. subst k'. assert (r' = r) by lia. subst r'.
    assert (Hq : d / 365 = year - 1970) by (rewrite <- Hyear; ring).
    rewrite Hq in Hsum'.
    assert (Hextra : 0 <= (if Full.isLeapYear year && (2 <=? Z.of_nat k)
                           then 1 else 0))
      by (destruct (Full.isLeapYear year && (2 <=? Z.of_nat k)); lia).
    destruct (Z_lt_le_dec year 1972) as [Hearly | Hlate]; [lia |].
    assert (year = 1972) as -> by lia.
    change (Full.isLeapYear 1972) with true in Hoff. cbn [andb] in Hoff.
    destruct (Z.leb_spec 2 (Z.of_nat k)); [lia |].
    assert (Hk01 : k = 0%nat \/ k = 1%nat) by lia.
    destruct Hk01 as [-> | ->].
    + change (sumList (firstn 0 months365)) with 0 in Hsum'. lia.
    + change (sumList (firstn 1 months365)) with 31 in Hsum'.
      specialize (Hfeb eq_refl). lia.
  - intros Hsmall.
    assert (Hyear : year = 1970 \/ year = 1971 \/ year = 1972).
    { destruct (Z_lt_le_dec year 1973); [lia |].
      specialize (Hlow73 ltac:(lia)).
      pose proof (CalendarFacts.firstn_sum_bound year k Hk). lia. }
    assert (Hparts :
      d = 365 * (year - 1970) + sumList (firstn k months365) + r
      /\ 0 <= r < nth k months365 0).
    { destruct Hyear as [-> | [-> | ->]].
      - change (daysBeforeYear 1970) with 0 in Hsum.
        change (Full.isLeapYear 1970) with false in Hoff, Hsame.
        cbn [andb] in Hoff. rewrite Hsame in Hr by reflexivity. lia.
      - change (daysBeforeYear 1971) with 365 in Hsum.
        change (Full.isLeapYear 1971) with false in Hoff, Hsame.
        cbn [andb] in Hoff. rewrite Hsame in Hr by reflexivity. lia.
      - change (daysBeforeYear 1972) with 730 in Hsum.
        change (Full.isLeapYear 1972) with true in Hoff.
        cbn [andb] in Hoff.
        destruct (Z.leb_spec 2 (Z.of_nat k)).
        + assert (59 <= sumList (firstn k months365)).
          { clear - H Hk. unfold months365.
            do 12 (destruct k as [| k]; [cbn in *; lia |]). lia. }
          lia.
        + assert (Hk01 : k = 0%nat \/ k = 1%nat) by lia.
          destruct Hk01 as [-> | ->].
          * change (sumList (firstn 0 months365)) with 0 in *.
            change (nth 0 (Full.daysInMonthsOf 1972) 0) with 31 in Hr.
            change (nth 0 months365 0) with 31. lia.
          * change (sumList (firstn 1 months365)) with 31 in *.
            change (nth 1 months365 0) with 28. lia. }
    destruct Hparts as [Hd' Hr'].
    rewrite Hd' at 1.
    rewrite DriftFacts.daysToDateSimple_of_parts by (try assumption; lia).
    replace (1970 + (year - 1970)) with year by ring. reflexivity.
Qed.

Lemma simplified_date_exact_until_first_leap_day_witness :
  0 <= 788
  /\ (Simple.daysToDateSimple 788
      = (DateInfo.year (Full.daysSinceEpochToDate 788),
         DateInfo.month (Full.daysSinceEpochToDate 788),
         DateInfo.day (Full.daysSinceEpochToDate 788))
      <-> 788 < 789).
Proof.
  split; [lia |].
  exact (simplified_date_exact_until_first_leap_day 788 ltac:(lia)).
Defined.

(** X19.  Before the epoch the simplified conversion degenerates: for
    every negative time value it uses the standard-time offset (no DST)
    and reports January 1 as the date. *)
Theorem convertUTCToEasternSimple_before_epoch (utcDate : Date) :
  utcDate < 0 ->
  let e := Simple.convertUTCToEasternSimple utcDate in
  EasternTime.isDST e = false
  /\ EasternTime.month e = 1 /\ EasternTime.day e = 1
  /\ EasternTime.year e < 1970.
Proof.
  intros Hneg e. subst e. unfold Simple.convertUTCToEasternSimple.
  cbv zeta. unfold getTime.
  set (ts := utcDate / 1000).
  assert (Hts : ts < 0) by (unfold ts; Z.div_mod_to_equations; lia).
  assert (Hdst : Simple.isDaylightSavingTimeSimple ts = false).
  { unfold Simple.isDaylightSavingTimeSimple. cbv zeta.
    assert (Hd : ts / 86400 < 0) by (Z.div_mod_to_equations; lia).
    pose proof (Z.rem_nonpos (ts / 86400) 365 ltac:(lia) ltac:(lia)) as Hr.
    replace (Z.rem (ts / 86400) 365 >=? 70) with false
      by (symmetry; rewrite Z.geb_leb; apply Z.leb_gt; lia).
    replace (Z.rem (ts / 86400) 365 >=? 90) with false
      by (symmetry; rewrite Z.geb_leb; apply Z.leb_gt; lia).
    destruct (_ >=? 2007); reflexivity. }
  rewrite Hdst.
  assert (Hday : (ts + -5 * 3600) / 86400 < 0)
    by (Z.div_mod_to_equations; lia).
  rewrite SimpleFacts.daysToDateSimple_negative by assumption.
  cbn [EasternTime.isDST EasternTime.month EasternTime.day
       EasternTime.year].
  repeat split.
  assert ((ts + -5 * 3600) / 86400 / 365 < 0)
    by (Z.div_mod_to_equations; lia).
  lia.
Qed.

Lemma convertUTCToEasternSimple_before_epoch_witness :
  -86400000 < 0
  /\ EasternTime.isDST (Simple.convertUTCToEasternSimple (-86400000))
     = false
  /\ EasternTime.month (Simple.convertUTCToEasternSimple (-86400000)) = 1
  /\ EasternTime.day (Simple.convertUTCToEasternSimple (-86400000)) = 1
  /\ EasternTime.year (Simple.convertUTCToEasternSimple (-86400000)) < 1970.
Proof.
  split; [lia |].
  exact (convertUTCToEasternSimple_before_epoch (-86400000) ltac:(lia)).
Defined.

(** X20.  What an open answer of the full evaluator means.  Whenever
    [getCurrentNYSEMarketState] answers open, the clock reading shifted
    by the offset in use (4 hours under DST, else 5) lies on a Monday to
    Friday and between 9:30:00 and 15:59:59 of that day. *)
Theorem open_means_eastern_session (h : Host) :
  MarketState.isOpen (Full.getCurrentNYSEMarketState h) = true ->
  let e := Full.convertUTCToEastern (newDate h) in
  let offsetHours := if EasternTime.isDST e then 4 else 5 in
  let eastern := clockMillis h / 1000 - offsetHours * 3600 in
  1 <= weekdayOfDays (eastern / 86400) <= 5
  /\ 34200 <= eastern mod 86400 < 57600.
Proof.
  intros Hopen e offsetHours eastern.
  unfold Full.getCurrentNYSEMarketState in Hopen. cbv zeta in Hopen.
  fold e in Hopen.
  set (ts := clockMillis h / 1000) in *.
  assert (Hoff : offsetHours = 4 \/ offsetHours = 5)
    by (unfold offsetHours; destruct (EasternTime.isDST e); auto).
  assert (Hclock : EasternTime.hour e = eastern mod 86400 / 3600
                   /\ EasternTime.minute e
                      = Z.rem (eastern mod 86400) 3600 / 60
                   /\ EasternTime.weekday e = weekdayOfDays (ts / 86400)).
  { unfold eastern, offsetHours, e, Full.convertUTCToEastern, newDate,
      getTime. cbv zeta.
    cbn [EasternTime.hour EasternTime.minute EasternTime.isDST
         EasternTime.weekday].
    rewrite secondsOfDay_mod. fold ts.
    replace (DateInfo.weekday (Full.daysSinceEpochToDate (ts / 86400)))
      with (weekdayOfDays (ts / 86400))
      by (unfold Full.daysSinceEpochToDate;
          destruct (Full.stripYears _ _) as [y r];
          destruct (stripMonths _ _ _) as [r' m]; reflexivity).
    destruct (Full.isDSTInEffect _ _ _ _);
      (split; [do 2 f_equal; lia | split; [do 3 f_equal; lia |]]);
      reflexivity. }
  destruct Hclock as (Hhour & Hminute & Hweekday).
  revert Hopen. unfold Full.marketStateOf. cbv zeta.
  pose proof (EvaluatorFacts.weekend_test (EasternTime.weekday e)) as Hw.
  destruct ((EasternTime.weekday e =? 0) || (EasternTime.weekday e =? 6));
    [discriminate |].
  destruct (truthy _); [discriminate |].
  intros Hopen.
  apply (proj1 (EvaluatorFacts.hoursCheck_open e _)) in Hopen.
  rewrite Hhour, Hminute in Hopen.
  pose proof (Z.mod_pos_bound eastern 86400 ltac:(lia)) as Hs.
  rewrite Z.rem_mod_nonneg in Hopen by lia.
  assert (Hwindow : 34200 <= eastern mod 86400 < 57600)
    by (clear - Hopen Hs; Z.div_mod_to_equations; lia).
  split; [| exact Hwindow].
  assert (Hsame : ts / 86400 = eastern / 86400).
  { unfold eastern. clear - Hoff Hwindow. unfold eastern in Hwindow.
    destruct Hoff as [-> | ->]; Z.div_mod_to_equations; lia. }
  rewrite <- Hsame, <- Hweekday.
  pose proof (weekdayOfDays_range (ts / 86400)) as Hrange.
  rewrite <- Hweekday in Hrange.
  assert (Hnot : ~ (EasternTime.weekday e = 0 \/ EasternTime.weekday e = 6))
    by (intros H; apply Hw in H; discriminate).
  lia.
Qed.

Lemma open_means_eastern_session_witness :
  let h := mkHost 1718028000000 0 in
  MarketState.isOpen (Full.getCurrentNYSEMarketState h) = true
  /\ 1 <= weekdayOfDays ((1718028000 - 4 * 3600) / 86400) <= 5
  /\ 34200 <= (1718028000 - 4 * 3600) mod 86400 < 57600.
Proof.
  intros h. split; [reflexivity |].
  apply (open_means_eastern_session h). reflexivity.
Defined.
